(** * Shop REST backend: authentication, authorization and store protocol

    A shallow embedding of the Express handlers and middleware of the
    repository:

    - [helper/helper.js]            : token issuing and the [verifyToken] helper
    - [route/auth.js]               : [POST /auth/register], [POST /auth/login],
                                      [POST /auth/logout]
    - [middleware/verifyToken.js]   : bearer-token stage
    - [middleware/verifyRole.js]    : role / disabled-flag stage
    - [route/products.js]           : product validation, list, read, creation,
                                      update and delete
    - [route/users.js]              : [PUT /:id], [DELETE /:id]
    - [route/orders.js]             : [PUT /:id]
    - [app.js]                      : the route groups and their allowed roles

    The relational store, bcrypt and the jsonwebtoken package are external
    collaborators.  The store is a record of tables (lists of rows) on which
    every SQL statement of the handlers is a pure function; statements run in
    a small state-and-exception monad that can make any statement throw.
    jsonwebtoken is modelled in [Module Jwt] after its documented behaviour. *)

From Stdlib Require Import ZArith QArith List String Ascii Bool Lia.
From ExtLib Require Import Structures.Monad Structures.MonadExc.
Import ListNotations.
Import MonadNotation.

Local Open Scope string_scope.
Local Open Scope Z_scope.
Local Open Scope monad_scope.

Set Implicit Arguments.

(* ===================================================================== *)
(** ** JavaScript strings *)
(* ===================================================================== *)

Module Js.

(** [String.prototype.toLowerCase] on one code unit.  Only the ASCII
    upper-case letters are mapped; the handlers compare the result with
    the ASCII literals ["admin"] and ["cashier"], and no non-ASCII code
    point lower-cases to a string of those letters alone, so bytes above
    127 (UTF-8 continuation of anything else) are left as they are. *)
Definition lower_ascii (c : ascii) : ascii :=
  let n := nat_of_ascii c in
  if ((65 <=? n) && (n <=? 90))%nat then ascii_of_nat (n + 32) else c.

Fixpoint toLowerCase (s : string) : string :=
  match s with
  | EmptyString => EmptyString
  | String c r => String (lower_ascii c) (toLowerCase r)
  end.

(** [s.startsWith(p)] *)
Definition startsWith (s p : string) : bool := String.prefix p s.

(** [s.slice(n)] for [0 <= n] *)
Definition slice (s : string) (n : nat) : string :=
  String.substring n (String.length s - n) s.

(** Truthiness of a string: only the empty string is falsy. *)
Definition truthy_str (s : string) : bool := negb (s =? EmptyString)%string.

(** Truthiness of a number (NaN aside): only [0] is falsy. *)
Definition truthy_num (n : Z) : bool := negb (n =? 0).

(** [Array.prototype.includes] on an array of strings. *)
Definition includes (l : list string) (x : string) : bool :=
  existsb (String.eqb x) l.

End Js.

(* ===================================================================== *)
(** ** Thrown errors *)
(* ===================================================================== *)

(** The result of a JavaScript computation that may throw: a value, or
    the [message] of the thrown [Error]. *)
Inductive outcome (A : Type) : Type :=
| Ok (a : A)
| Throw (msg : string).
Arguments Ok {A} a.
Arguments Throw {A} msg.

(* ===================================================================== *)
(** ** The jsonwebtoken package *)
(* ===================================================================== *)

Module Jwt.

(** The object handed to [jwt.sign].  Access tokens carry
    [{id, email, role}], refresh tokens [{id}] only; a missing property
    is [None]. *)
Record payload : Type := mkPayload {
  p_id    : option Z;
  p_email : option string;
  p_role  : option string
}.

(** The decoded claim set: the payload plus the registered claims [iat]
    and (when the token was signed with [expiresIn]) [exp], both in
    seconds. *)
Record claims : Type := mkClaims {
  c_id    : option Z;
  c_email : option string;
  c_role  : option string;
  c_iat   : Z;
  c_exp   : option Z
}.

(** The text of a token.  [Signed c k] is the compact serialisation of
    the claim set [c] with a signature that verifies under the secret
    [k] and under no other (a tampered token is one whose signature does
    not verify under the server's secret).  [Malformed s] is any text
    [s] that is not such a serialisation, also after a leading
    ["Bearer "] is cut off. *)
Inductive token : Type :=
| Malformed (s : string)
| Signed (c : claims) (key : string).

(** The options object of [jwt.sign]: none at all, or
    [{ expiresIn: v }] where [v] is the configured life time in seconds,
    [None] when the configuration variable is not set ([undefined]). *)
Inductive sign_options : Type :=
| NoOptions
| ExpiresIn (v : option Z).

(** [jwt.sign(payload, secret, options)] at clock time [now]. *)
Definition sign (p : payload) (secret : option string)
           (opts : sign_options) (now : Z) : outcome token :=
  match secret with
  | None => Throw "secretOrPrivateKey must have a value"
  | Some k =>
      let mk e := Signed (mkClaims (p_id p) (p_email p) (p_role p) now e) k in
      match opts with
      | NoOptions => Ok (mk None)
      | ExpiresIn None =>
          Throw "expiresIn should be a number of seconds or string representing a timespan"
      | ExpiresIn (Some d) => Ok (mk (Some (now + d)))
      end
  end.

(** [jwt.verify(token, secret)] at clock time [now]: the decoded claims,
    or the error the package throws.  The checks come in the package's
    order: token text, secret, signature, expiry ([now >= exp]). *)
Definition verify (t : token) (secret : option string) (now : Z)
  : outcome claims :=
  match t with
  | Malformed s =>
      if (s =? EmptyString)%string then Throw "jwt must be provided"
      else Throw "jwt malformed"
  | Signed c k =>
      match secret with
      | None => Throw "secret or public key must be provided"
      | Some sk =>
          if negb (k =? sk)%string then Throw "invalid signature"
          else match c_exp c with
               | Some e => if e <=? now then Throw "jwt expired" else Ok c
               | None => Ok c
               end
      end
  end.

End Jwt.
Import Jwt.

(* ===================================================================== *)
(** ** Configuration: [process.env] *)
(* ===================================================================== *)

(** [JWT_ACCESS_EXPIRATION] is kept as the number of seconds its timespan
    text (for instance ["1h"]) stands for. *)
Record env : Type := mkEnv {
  JWT_SECRET            : option string;
  JWT_REFRESH_SECRET    : option string;
  JWT_ACCESS_EXPIRATION : option Z
}.

(* ===================================================================== *)
(** ** helper/helper.js *)
(* ===================================================================== *)

Module Helper.
Section WithEnv.
Variable E : env.

Definition ACCESS_SECRET  := JWT_SECRET E.
Definition REFRESH_SECRET := JWT_REFRESH_SECRET E.

Definition generateAccessToken (p : payload) (now : Z) : outcome token :=
  Jwt.sign (mkPayload (p_id p) (p_email p) (p_role p)) ACCESS_SECRET
           (ExpiresIn (JWT_ACCESS_EXPIRATION E)) now.

Definition generateAdminToken (p : payload) (now : Z) : outcome token :=
  Jwt.sign (mkPayload (p_id p) (p_email p) (p_role p)) ACCESS_SECRET
           NoOptions now.

(** ["7d"] is 604800 seconds. *)
Definition generateRefreshToken (p : payload) (now : Z) : outcome token :=
  Jwt.sign (mkPayload (p_id p) None None) REFRESH_SECRET
           (ExpiresIn (Some 604800)) now.

(** The default parameter [secret = ACCESS_SECRET]: an omitted
    ([undefined]) argument takes the default. *)
Definition effective_secret (secret : option string) : option string :=
  match secret with Some k => Some k | None => ACCESS_SECRET end.

(** [verifyToken(token, secret = ACCESS_SECRET)]: the claims, or [null]
    ([None]) whatever [jwt.verify] threw. *)
Definition verifyToken (t : token) (secret : option string) (now : Z)
  : option claims :=
  match Jwt.verify t (effective_secret secret) now with
  | Ok c => Some c
  | Throw _ => None
  end.

End WithEnv.
End Helper.

(* ===================================================================== *)
(** ** The relational store *)
(* ===================================================================== *)

(** Rows.  A column that the handlers may write or find [NULL] is an
    [option]: a parameter that is [undefined] or [null] in JavaScript
    reaches the store as [NULL].  [users.role] and the four text columns
    written by registration are never [NULL]: registration refuses a
    missing value and the update keeps the old one when given none. *)
Record user : Type := mkUser {
  u_id       : Z;
  u_fullname : string;
  u_username : string;
  u_email    : string;
  u_password : string;             (* bcrypt hash *)
  u_phone    : option string;
  u_address  : option string;
  u_role     : string;
  u_disabled : option bool         (* _is_active_disabled *)
}.

(** The columns [RETURNING id, fullname, username, email, role,
    _is_active_disabled] hands back. *)
Record user_view : Type := mkUserView {
  v_id       : Z;
  v_fullname : string;
  v_username : string;
  v_email    : string;
  v_role     : string;
  v_disabled : option bool
}.

Definition view_of (u : user) : user_view :=
  mkUserView (u_id u) (u_fullname u) (u_username u) (u_email u) (u_role u)
             (u_disabled u).

Record token_row : Type := mkTokenRow {
  tk_user_id    : option Z;
  tk_token      : token;
  tk_refresh    : token;
  tk_created_at : Z
}.

(** A JavaScript number as a request body can hold it. *)
Inductive jsnum : Type :=
| Num (q : Q)
| NaN.

Record product : Type := mkProduct {
  pr_id        : Z;
  pr_name      : option string;
  pr_price     : option jsnum;
  pr_size      : option string;
  pr_color     : option string;
  pr_category  : option string;
  pr_available : option bool;
  pr_stock     : option Z
}.

Record order : Type := mkOrder {
  o_id          : Z;
  o_customer_id : option Z;
  o_status      : option string;
  o_order_date  : option Z
}.

Record store : Type := mkStore {
  users    : list user;
  tokens   : list token_row;
  products : list product;
  orders   : list order
}.

Definition empty_store : store := mkStore [] [] [] [].

(** [x = $n] in a WHERE clause: never true for a [NULL] parameter. *)
Definition sql_eqZ (col : Z) (param : option Z) : bool :=
  match param with Some v => col =? v | None => false end.

Definition sql_eqS (col : string) (param : option string) : bool :=
  match param with Some v => (col =? v)%string | None => false end.

Definition sql_eq_optZ (col param : option Z) : bool :=
  match col with Some c => sql_eqZ c param | None => false end.

(** [COALESCE(a, b)] *)
Definition COALESCE {A : Type} (a : option A) (b : A) : A :=
  match a with Some v => v | None => b end.

(** [COALESCE(a, b)] where the column [b] may itself be [NULL]. *)
Definition COALESCEn {A : Type} (a b : option A) : option A :=
  match a with Some v => Some v | None => b end.

(** [MAX(col)]: [NULL] on no rows. *)
Definition sql_MAX (l : list Z) : option Z :=
  match l with
  | [] => None
  | x :: r => Some (fold_left Z.max r x)
  end.

(** A statement is a function from the store to its result and the store
    it leaves. *)
Definition statement (A : Type) : Type := store -> A * store.

Module Sql.

(** [SELECT * FROM users WHERE email = $1] *)
Definition users_by_email (email : option string) : statement (list user) :=
  fun s => (filter (fun u => sql_eqS (u_email u) email) (users s), s).

(** [SELECT role, _is_active_disabled FROM users WHERE id = $1] *)
Definition user_role_flag (id : option Z)
  : statement (list (string * option bool)) :=
  fun s => (map (fun u => (u_role u, u_disabled u))
                (filter (fun u => sql_eqZ (u_id u) id) (users s)), s).

(** [DELETE FROM tokens WHERE user_id = $1] *)
Definition delete_tokens (id : option Z) : statement unit :=
  fun s => (tt, mkStore (users s)
                        (filter (fun r => negb (sql_eq_optZ (tk_user_id r) id))
                                (tokens s))
                        (products s) (orders s)).

(** [INSERT INTO tokens (user_id, token, refresh_token, created_at)
     VALUES ($1, $2, $3, NOW())] *)
Definition insert_token (id : option Z) (access refresh : token) (now : Z)
  : statement unit :=
  fun s => (tt, mkStore (users s)
                        (tokens s ++ [mkTokenRow id access refresh now])
                        (products s) (orders s)).

(** [SELECT COALESCE(MAX(id),0)+1 AS next_id FROM products] *)
Definition next_product_id : statement (list Z) :=
  fun s => ([COALESCE (sql_MAX (map pr_id (products s))) 0 + 1], s).

(** [INSERT INTO products (id, name, price, size, color, category,
     available) VALUES ($1, $2, $3, $4, $5, $6, TRUE) RETURNING *];
    [stock] takes the column default, which the sources do not show. *)
Definition insert_product (stock_default : option Z)
           (id : Z) (name : option string) (price : option jsnum)
           (size color category : option string)
  : statement (list product) :=
  fun s =>
    let row := mkProduct id name price size color category (Some true)
                         stock_default in
    ([row], mkStore (users s) (tokens s) (products s ++ [row]) (orders s)).

(** [SELECT * FROM products WHERE id = $1] *)
Definition product_by_id (id : Z) : statement (list product) :=
  fun s => (filter (fun p => pr_id p =? id) (products s), s).

(** [UPDATE products SET name=$1, price=$2, size=$3, color=$4,
     category=$5, available=COALESCE($6, available) WHERE id=$7
     RETURNING *] *)
Definition update_product (name : option string) (price : option jsnum)
           (size color category : option string)
           (available : option bool) (id : Z)
  : statement (list product) :=
  fun s =>
    let upd p :=
      mkProduct (pr_id p) name price size color category
                (COALESCEn available (pr_available p))
                (pr_stock p) in
    let tbl := map (fun p => if pr_id p =? id then upd p else p) (products s) in
    (filter (fun p => pr_id p =? id) tbl,
     mkStore (users s) (tokens s) tbl (orders s)).

(** [UPDATE users SET fullname = COALESCE($1, fullname), username =
     COALESCE($2, username), email = COALESCE($3, email), role =
     COALESCE($4, role), _is_active_disabled = COALESCE($5,
     _is_active_disabled) WHERE id = $6 RETURNING ...] *)
Definition update_user (fullname username email role : option string)
           (disabled : option bool) (id : Z) : statement (list user_view) :=
  fun s =>
    let upd u :=
      mkUser (u_id u)
             (COALESCE fullname (u_fullname u))
             (COALESCE username (u_username u))
             (COALESCE email (u_email u))
             (u_password u) (u_phone u) (u_address u)
             (COALESCE role (u_role u))
             (COALESCEn disabled (u_disabled u)) in
    let tbl := map (fun u => if u_id u =? id then upd u else u) (users s) in
    (map view_of (filter (fun u => u_id u =? id) tbl),
     mkStore tbl (tokens s) (products s) (orders s)).

(** [UPDATE orders SET customer_id = $1, status = $2 WHERE id = $3
     RETURNING *] *)
Definition update_order (customer_id : option Z) (status : option string)
           (id : Z) : statement (list order) :=
  fun s =>
    let upd o := mkOrder (o_id o) customer_id status (o_order_date o) in
    let tbl := map (fun o => if o_id o =? id then upd o else o) (orders s) in
    (filter (fun o => o_id o =? id) tbl,
     mkStore (users s) (tokens s) (products s) tbl).

End Sql.

(* ===================================================================== *)
(** ** Running statements: state, faults and thrown errors *)
(* ===================================================================== *)

(** What a handler runs against.

    - [committed]: the store as every connection sees it;
    - [txn]: the working copy of the transaction open on the checked-out
      client, if any;
    - [clients]: the number of clients checked out of the pool;
    - [faults]: for each call to the store still to come, [Some msg] when
      that call is to reject with an error of that message (a lost
      connection, a violated constraint, a lock timeout);
    - [hist]: the committed store as it stood after each call so far,
      latest first -- what another connection could have read. *)
Record world : Type := mkWorld {
  committed : store;
  txn       : option store;
  clients   : nat;
  faults    : list (option string);
  hist      : list store
}.

Definition initial_world (s : store) : world := mkWorld s None 0 [] [].

(** Every committed store another connection could have seen, the present
    one included. *)
Definition observed (w : world) : list store := committed w :: hist w.

(** Handlers are computations over the world that return or throw; the
    world survives a throw. *)
Definition M (A : Type) : Type := world -> outcome A * world.

#[global] Instance Monad_M : Monad M := {
  ret := fun _ a w => (Ok a, w);
  bind := fun _ _ m k w =>
            match m w with
            | (Ok a, w') => k a w'
            | (Throw e, w') => (Throw e, w')
            end
}.

(** [throw] and [try { } catch (err) { }], [err] being the message. *)
#[global] Instance Exc_M : MonadExc string M := {
  raise := fun _ e w => (Throw e, w);
  catch := fun _ m h w =>
             match m w with
             | (Ok a, w') => (Ok a, w')
             | (Throw e, w') => h e w'
             end
}.

(** [try { m } finally { f }] *)
Definition finally {A : Type} (m : M A) (f : M unit) : M A :=
  fun w =>
    match m w with
    | (r, w') =>
        match f w' with
        | (Ok _, w'') => (r, w'')
        | (Throw e, w'') => (Throw e, w'')
        end
    end.

Module Db.

(** The fault waiting for the next call to the store, if any. *)
Definition next_fault (w : world) : option string :=
  nth 0 (faults w) None.

(** The world once that fault (or its absence) is used up. *)
Definition tick (w : world) : world :=
  mkWorld (committed w) (txn w) (clients w) (tl (faults w)) (hist w).

(** The committed store goes into the history. *)
Definition log (w : world) : world :=
  mkWorld (committed w) (txn w) (clients w) (faults w)
          (committed w :: hist w).

(** One round trip to the store: it rejects if a fault is waiting and has
    no effect then; otherwise [run] is its effect.  Either way the
    committed store is logged once the call is over. *)
Definition call {A : Type} (run : world -> A * world) : M A :=
  fun w =>
    match next_fault w with
    | Some msg => (Throw msg, log (tick w))
    | None => let (a, w1) := run (tick w) in (Ok a, log w1)
    end.

(** [pool.query(text, params)]: its own connection, committed at once. *)
Definition pool_query {A : Type} (q : statement A) : M A :=
  call (fun w =>
          let (a, s') := q (committed w) in
          (a, mkWorld s' (txn w) (clients w) (faults w) (hist w))).

(** [pool.connect()] / [client.release()] *)
Definition pool_connect : M unit :=
  call (fun w => (tt, mkWorld (committed w) (txn w) (S (clients w))
                              (faults w) (hist w))).

Definition client_release : M unit :=
  fun w => (Ok tt, mkWorld (committed w) (txn w) (pred (clients w))
                           (faults w) (hist w)).

(** [client.query('BEGIN')]: the transaction starts from the committed
    store (a second BEGIN inside a transaction only warns). *)
Definition client_begin : M unit :=
  call (fun w =>
          (tt, mkWorld (committed w)
                       (match txn w with
                        | Some t => Some t
                        | None => Some (committed w)
                        end)
                       (clients w) (faults w) (hist w))).

(** [client.query('LOCK TABLE products IN SHARE ROW EXCLUSIVE MODE')]:
    with one request running at a time the lock is always granted. *)
Definition client_lock : M unit :=
  call (fun w => (tt, w)).

(** [client.query(text, params)]: inside the open transaction when there
    is one, committed at once otherwise. *)
Definition client_query {A : Type} (q : statement A) : M A :=
  call (fun w =>
          match txn w with
          | Some t =>
              let (a, t') := q t in
              (a, mkWorld (committed w) (Some t') (clients w) (faults w)
                          (hist w))
          | None =>
              let (a, s') := q (committed w) in
              (a, mkWorld s' None (clients w) (faults w) (hist w))
          end).

(** [client.query('COMMIT')] *)
Definition client_commit : M unit :=
  call (fun w =>
          (tt, mkWorld (match txn w with
                        | Some t => t
                        | None => committed w
                        end)
                       None (clients w) (faults w) (hist w))).

(** [client.query('ROLLBACK')] (outside a transaction it only warns). *)
Definition client_rollback : M unit :=
  call (fun w => (tt, mkWorld (committed w) None (clients w) (faults w)
                              (hist w))).

End Db.

(* ===================================================================== *)
(** ** Responses *)
(* ===================================================================== *)

(** [res.status(code).json({status, message, error, data...})]; a field
    the handler does not send is [None]. *)
Record response (D : Type) : Type := mkResponse {
  code      : Z;
  r_status  : option string;
  r_message : option string;
  r_error   : option string;
  r_data    : option D
}.
Arguments mkResponse {D} code r_status r_message r_error r_data.

(** [{ status, message }] *)
Definition envelope {D : Type} (c : Z) (st msg : string) : response D :=
  mkResponse c (Some st) (Some msg) None None.

(** [{ error }] *)
Definition error_only {D : Type} (c : Z) (err : string) : response D :=
  mkResponse c None None (Some err) None.

(** An [outcome] computed without the store, inside a handler. *)
Definition liftO {A : Type} (o : outcome A) : M A := fun w => (o, w).

(* ===================================================================== *)
(** ** route/auth.js *)
(* ===================================================================== *)

Module Auth.
Section WithEnv.
Variable E : env.

(** [bcrypt.compare(data, hash)] on two strings. *)
Variable compare : string -> string -> bool.

(** [await compare(password, user.password)]: bcrypt rejects when the
    data is [undefined]. *)
Definition bcrypt_compare (password : option string) (hash : string)
  : M bool :=
  match password with
  | None => raise "data and hash arguments required"
  | Some p => ret (compare p hash)
  end.

Record login_body : Type := mkLoginBody {
  lb_email    : option string;
  lb_password : option string
}.

(** The 200 body of login: [data: {id, fullname, email, role}],
    [accessToken], [refreshToken]. *)
Record login_data : Type := mkLoginData {
  ld_id           : Z;
  ld_fullname     : string;
  ld_email        : string;
  ld_role         : string;
  ld_accessToken  : token;
  ld_refreshToken : token
}.

(** [router.post("/login", ...)] at clock time [now]. *)
Definition login (now : Z) (body : login_body) : M (response login_data) :=
  catch
    (result <- Db.pool_query (Sql.users_by_email (lb_email body)) ;;
     match result with
     | [] => ret (envelope 400 "error" "Email tidak ditemukan")
     | user :: _ =>
         match_ <- bcrypt_compare (lb_password body) (u_password user) ;;
         if negb match_ then ret (envelope 400 "error" "Password salah")
         else
           let claims := mkPayload (Some (u_id user)) (Some (u_email user))
                                   (Some (u_role user)) in
           accessToken <-
             (if (Js.toLowerCase (u_role user) =? "admin")%string
              then liftO (Jwt.sign claims (JWT_SECRET E) NoOptions now)
              else liftO (Helper.generateAccessToken E claims now)) ;;
           refreshToken <-
             liftO (Helper.generateRefreshToken E
                      (mkPayload (Some (u_id user)) None None) now) ;;
           Db.pool_query (Sql.delete_tokens (Some (u_id user))) ;;
           Db.pool_query (Sql.insert_token (Some (u_id user)) accessToken
                                           refreshToken now) ;;
           ret (mkResponse 200 (Some "success") (Some "Login berhasil") None
                  (Some (mkLoginData (u_id user) (u_fullname user)
                                     (u_email user) (u_role user)
                                     accessToken refreshToken)))
     end)
    (fun err => ret (envelope 500 "error" ("Internal server error: " ++ err))).

(** [router.post("/logout", ...)]; [id] is [req.user?.id]. *)
Definition logout (id : option Z) : M (response unit) :=
  catch
    (Db.pool_query (Sql.delete_tokens id) ;;
     ret (envelope 200 "success" "Berhasil logout"))
    (fun err => ret (envelope 500 "error" err)).

End WithEnv.
End Auth.

(* ===================================================================== *)
(** ** middleware/verifyToken.js and middleware/verifyRole.js *)
(* ===================================================================== *)

Module Middleware.

(** The text of the [authorization] header: a token text, with or
    without ["Bearer "] in front. *)
Inductive header_text : Type :=
| Plain (t : token)
| Bearer (t : token).

(** [req.user] as the token stage sets it. *)
Record req_user : Type := mkReqUser {
  ru_id   : option Z;
  ru_role : option string
}.

Record request : Type := mkRequest {
  authorization : option header_text;
  req_user_of   : option req_user
}.

(** A middleware either answers or calls [next()] with the request as it
    left it. *)
Inductive stage (D : Type) : Type :=
| Respond (r : response D)
| Next (req : request).
Arguments Respond {D} r.
Arguments Next {D} req.

(** [!token] on a header that is there: only the empty text is falsy. *)
Definition text_falsy (h : header_text) : bool :=
  match h with
  | Plain (Malformed s) => negb (Js.truthy_str s)
  | _ => false
  end.

(** [if (token.startsWith("Bearer ")) token = token.slice(7)].  The
    serialisation of a signed token starts with its base64url header,
    never with ["Bearer "]. *)
Definition strip_bearer (h : header_text) : token :=
  match h with
  | Bearer t => t
  | Plain (Malformed s) =>
      if Js.startsWith s "Bearer " then Malformed (Js.slice s 7)
      else Malformed s
  | Plain (Signed c k) => Signed c k
  end.

Definition expired_message : string := "Token kadaluarsa, silakan login ulang".

Section WithEnv.
Variable E : env.

(** [verifyToken(req, res, next)] at clock time [now]. *)
Definition verifyToken {D : Type} (now : Z) (req : request) : stage D :=
  match authorization req with
  | None =>
      Respond (envelope 401 "error" "Token tidak ditemukan atau belum login")
  | Some h =>
      if text_falsy h then
        Respond (envelope 401 "error" "Token tidak ditemukan atau belum login")
      else
        match Jwt.verify (strip_bearer h) (JWT_SECRET E) now with
        | Ok decoded =>
            Next (mkRequest (authorization req)
                            (Some (mkReqUser (c_id decoded) (c_role decoded))))
        | Throw msg =>
            if (msg =? "jwt expired")%string then
              Respond (envelope 401 "error" expired_message)
            else
              Respond (envelope 401 "error" ("Token invalid: " ++ msg))
        end
  end.
End WithEnv.

(** [req.user?.id] *)
Definition user_id (req : request) : option Z :=
  match req_user_of req with
  | Some u => ru_id u
  | None => None
  end.

(** [!userId] *)
Definition id_falsy (id : option Z) : bool :=
  match id with
  | Some n => negb (Js.truthy_num n)
  | None => true
  end.

(** [verifyRole(allowedRoles)(req, res, next)] *)
Definition verifyRole {D : Type} (allowedRoles : list string) (req : request)
  : M (stage D) :=
  catch
    (let userId := user_id req in
     if id_falsy userId then
       ret (Respond (envelope 401 "error" "User tidak valid"))
     else
       result <- Db.pool_query (Sql.user_role_flag userId) ;;
       match result with
       | [] => ret (Respond (envelope 404 "error" "User tidak ditemukan"))
       | (role, disabled) :: _ =>
           if match disabled with Some true => true | _ => false end then
             ret (Respond (envelope 403 "error" "Akun Anda telah dinonaktifkan"))
           else if negb (Js.includes allowedRoles (Js.toLowerCase role)) then
             ret (Respond (envelope 403 "error"
                    ("Akses ditolak: role '" ++ role ++ "' tidak memiliki izin")))
           else ret (Next req)
       end)
    (fun _ => ret (Respond (envelope 500 "error" "Internal server error"))).

End Middleware.
Import Middleware.

(* ===================================================================== *)
(** ** app.js: the protected route groups *)
(* ===================================================================== *)

Module App.
Section WithEnv.
Variable E : env.

(** [app.use(path, verifyToken, verifyRole(allowed), router)] *)
Definition protected {D : Type} (allowed : list string)
           (router : request -> M (response D))
           (now : Z) (req : request) : M (response D) :=
  match verifyToken E now req with
  | Respond r => ret r
  | Next req1 =>
      st <- verifyRole allowed req1 ;;
      match st with
      | Respond r => ret r
      | Next req2 => router req2
      end
  end.

(** [/categories], [/products], [/users] *)
Definition admin_only : list string := ["admin"].

(** [/transactions], [/orders], [/stocks] *)
Definition cashier_or_admin : list string := ["cashier"; "admin"].

End WithEnv.
End App.

(* ===================================================================== *)
(** ** route/products.js *)
(* ===================================================================== *)

Module Products.

Definition ALLOWED_TYPES : list string := ["clothing"; "accessory"].

(** [req.body] of the product routes, with the JSON types the routes'
    API description gives its properties (id an integer, price a number,
    the others strings, available a boolean); [None] is a property that is
    not sent (or sent as [null]).  A body that sends a property with another
    JSON type (a price as a string, say) is not covered. *)
Record body : Type := mkBody {
  b_id        : option Z;
  b_name      : option string;
  b_price     : option jsnum;
  b_size      : option string;
  b_color     : option string;
  b_category  : option string;
  b_available : option bool
}.

Definition falsy_str (s : option string) : bool :=
  match s with Some v => negb (Js.truthy_str v) | None => true end.

Definition isNaN (n : jsnum) : bool :=
  match n with NaN => true | Num _ => false end.

(** [price < 0] *)
Definition negative (n : jsnum) : bool :=
  match n with NaN => false | Num q => negb (Qle_bool 0 q) end.

Definition quote : string := String (ascii_of_nat 34) EmptyString.

(** [validateProductInput(body)]: the error text, or [null]. *)
Definition validateProductInput (b : body) : option string :=
  if id_falsy (b_id b) || falsy_str (b_name b) || falsy_str (b_size b)
     || falsy_str (b_color b) || falsy_str (b_category b)
     || match b_price b with None => true | Some _ => false end
  then Some "Semua field wajib diisi"
  else if match b_category b with
          | Some c => negb (Js.includes ALLOWED_TYPES c)
          | None => true
          end
  then Some ("category harus " ++ quote ++ "clothing" ++ quote ++ " atau "
             ++ quote ++ "accessory" ++ quote)
  else if match b_price b with
          | Some n => isNaN n || negative n
          | None => false
          end
  then Some "price harus angka valid dan tidak negatif"
  else None.

Section WithSchema.
(** The default of the [stock] column. *)
Variable stock_default : option Z.

(** [router.post('/', ...)] *)
Definition post (b : body) : M (response product) :=
  match validateProductInput b with
  | Some err => ret (error_only 400 err)
  | None =>
      Db.pool_connect ;;
      finally
        (catch
           (Db.client_begin ;;
            Db.client_lock ;;
            maxRows <- Db.client_query Sql.next_product_id ;;
            match maxRows with
            | [] => raise "Cannot read properties of undefined"
            | nextId :: _ =>
                rows <- Db.client_query
                          (Sql.insert_product stock_default nextId
                             (b_name b) (b_price b) (b_size b) (b_color b)
                             (b_category b)) ;;
                Db.client_commit ;;
                ret (mkResponse 201 None None None (hd_error rows))
            end)
           (fun _ =>
              Db.client_rollback ;;
              ret (error_only 500 "Server error")))
        Db.client_release
  end.
End WithSchema.

(** [router.put('/:id', ...)] *)
Definition put (id : Z) (b : body) : M (response product) :=
  match validateProductInput b with
  | Some err => ret (error_only 400 err)
  | None =>
      catch
        (existing <- Db.pool_query (Sql.product_by_id id) ;;
         match existing with
         | [] => ret (error_only 404 "Produk tidak ditemukan")
         | _ :: _ =>
             rows <- Db.pool_query
                       (Sql.update_product (b_name b) (b_price b) (b_size b)
                          (b_color b) (b_category b) (b_available b) id) ;;
             ret (mkResponse 200 None None None (hd_error rows))
         end)
        (fun _ => ret (error_only 500 "Server error"))
  end.

End Products.

(* ===================================================================== *)
(** ** route/users.js and route/orders.js: the update handlers *)
(* ===================================================================== *)

Module Users.

Record body : Type := mkBody {
  b_fullname : option string;
  b_username : option string;
  b_email    : option string;
  b_role     : option string;
  b_disabled : option bool
}.

(** [router.put("/:id", ...)] *)
Definition put (id : Z) (b : body) : M (response user_view) :=
  catch
    (result <- Db.pool_query
                 (Sql.update_user (b_fullname b) (b_username b) (b_email b)
                                  (b_role b) (b_disabled b) id) ;;
     match result with
     | [] => ret (envelope 404 "error" "User tidak ditemukan")
     | row :: _ =>
         ret (mkResponse 200 (Some "success")
                         (Some "User berhasil diperbarui") None (Some row))
     end)
    (fun err => ret (envelope 500 "error" err)).

End Users.

Module Orders.

Record body : Type := mkBody {
  b_customer_id : option Z;
  b_status      : option string
}.

(** [router.put("/:id", ...)] *)
Definition put (id : Z) (b : body) : M (response order) :=
  catch
    (result <- Db.pool_query
                 (Sql.update_order (b_customer_id b) (b_status b) id) ;;
     match result with
     | [] => ret (envelope 404 "error" "Order tidak ditemukan")
     | row :: _ =>
         ret (mkResponse 200 (Some "success")
                         (Some "Order berhasil diperbarui") None (Some row))
     end)
    (fun err => ret (envelope 500 "error" err)).

End Orders.

(* ===================================================================== *)
(** ** Vocabulary of the properties *)
(* ===================================================================== *)

(** The [exp] claim a token text carries, if it carries one. *)
Definition token_exp (t : token) : option Z :=
  match t with
  | Signed c _ => c_exp c
  | Malformed _ => None
  end.

(** The claims login signs into the access token of [u]. *)
Definition access_claims (u : user) (now : Z) (exp : option Z) : claims :=
  mkClaims (Some (u_id u)) (Some (u_email u)) (Some (u_role u)) now exp.

(** The claims login signs into the refresh token of [u]. *)
Definition refresh_claims (u : user) (now : Z) : claims :=
  mkClaims (Some (u_id u)) None None now (Some (now + 604800)).

(** The next [n] calls to the store are answered. *)
Definition calm (n : nat) (w : world) : Prop :=
  forall k, (k < n)%nat -> nth k (faults w) None = None.

(** The token rows of user [uid]. *)
Definition rows_for (uid : Z) (s : store) : list token_row :=
  filter (fun r => sql_eq_optZ (tk_user_id r) (Some uid)) (tokens s).

(** At most one token pair per user. *)
Definition at_most_one (s : store) : Prop :=
  forall uid, (List.length (rows_for uid s) <= 1)%nat.

(** What the role stage decides from the rows its query returned. *)
Definition role_decision (D : Type) (allowed : list string) (req : request)
           (rows : list (string * option bool)) : stage D :=
  match rows with
  | [] => Respond (envelope 404 "error" "User tidak ditemukan")
  | (role, disabled) :: _ =>
      if match disabled with Some true => true | _ => false end then
        Respond (envelope 403 "error" "Akun Anda telah dinonaktifkan")
      else if negb (Js.includes allowed (Js.toLowerCase role)) then
        Respond (envelope 403 "error"
                   ("Akses ditolak: role '" ++ role ++ "' tidak memiliki izin"))
      else Next req
  end.

(** What a stage let the client see: its answer, or nothing yet. *)
Definition verdict {D : Type} (o : outcome (stage D))
  : outcome (option (response D)) :=
  match o with
  | Ok (Respond r) => Ok (Some r)
  | Ok (Next _) => Ok None
  | Throw e => Throw e
  end.

(** The request as the token stage hands it on for claims [c]. *)
Definition authenticated (req : request) (c : claims) : request :=
  mkRequest (authorization req) (Some (mkReqUser (c_id c) (c_role c))).

(** The row [PUT /users/:id] leaves in place of [u]. *)
Definition patched_user (b : Users.body) (u : user) : user :=
  mkUser (u_id u)
         (COALESCE (Users.b_fullname b) (u_fullname u))
         (COALESCE (Users.b_username b) (u_username u))
         (COALESCE (Users.b_email b) (u_email u))
         (u_password u) (u_phone u) (u_address u)
         (COALESCE (Users.b_role b) (u_role u))
         (COALESCEn (Users.b_disabled b) (u_disabled u)).



(** The world after one answered read of the store. *)
Definition after_read (w : world) : world :=
  mkWorld (committed w) (txn w) (clients w) (tl (faults w))
          (committed w :: hist w).

(** Every committed store seen so far keeps to one pair per user. *)
Definition one_pair_so_far (w : world) : Prop :=
  Forall at_most_one (observed w).

(** The calls the auth router serves, and the world after a sequence of
    them, one after the other. *)
Inductive auth_call : Type :=
| Login (now : Z) (body : Auth.login_body)
| Logout (id : option Z).

Definition serve (E : env) (compare : string -> string -> bool)
           (w : world) (c : auth_call) : world :=
  match c with
  | Login now body => snd (Auth.login E compare now body w)
  | Logout id => snd (Auth.logout id w)
  end.

Definition serve_all (E : env) (compare : string -> string -> bool)
           (calls : list auth_call) (w : world) : world :=
  fold_left (serve E compare) calls w.

(** A Hoare triple over [M]: from a world in [P], [m] ends in [Q]. *)
Definition hoare {A : Type} (P : world -> Prop) (m : M A)
           (Q : outcome A -> world -> Prop) : Prop :=
  forall w, P w -> Q (fst (m w)) (snd (m w)).

(** Sample data for the concrete runs. *)
Module Sample.

Definition E0 : env := mkEnv (Some "s3cret") (Some "r3fresh") (Some 3600).

Definition alice : user :=
  mkUser 1 "Alice" "alice" "alice@shop.test" "hash-a" None None "Admin" None.

Definition bob : user :=
  mkUser 2 "Bob" "bob" "bob@shop.test" "hash-b" None None "cashier"
         (Some false).

Definition carol : user :=
  mkUser 3 "Carol" "carol" "carol@shop.test" "hash-c" None None "admin"
         (Some true).

Definition s0 : store := mkStore [alice; bob; carol] [] [] [].

(** A stand-in for bcrypt on the sample hashes. *)
Definition compare0 (password hash : string) : bool :=
  (("hash-" ++ password) =? hash)%string.

Definition bob_claims (exp : option Z) : claims :=
  mkClaims (Some 2) (Some "bob@shop.test") (Some "cashier") 0 exp.

Definition alice_login : Auth.login_body :=
  Auth.mkLoginBody (Some "alice@shop.test") (Some "a").

Definition bob_login : Auth.login_body :=
  Auth.mkLoginBody (Some "bob@shop.test") (Some "b").

Definition shirt : Products.body :=
  Products.mkBody (Some 77) (Some "shirt") (Some (Num (25 # 2))) (Some "M")
                  (Some "red") (Some "clothing") None.

Definition cap : product :=
  mkProduct 4 (Some "cap") (Some (Num (5 # 1))) (Some "L") (Some "blue")
            (Some "accessory") (Some false) (Some 3).

Definition belt : product :=
  mkProduct 9 (Some "belt") (Some (Num (8 # 1))) (Some "S") (Some "black")
            (Some "accessory") (Some true) None.

Definition shop : store := mkStore [alice; bob; carol] [] [cap; belt] [].

Definition paid_order : order := mkOrder 1 (Some 7) (Some "paid") (Some 20250101).

Definition orders_store : store := mkStore [] [] [] [paid_order].

(** A request body that sends [customer_id] and leaves [status] out. *)
Definition only_customer : Orders.body := Orders.mkBody (Some 7) None.


(** A product update that leaves [name] out. *)
Definition nameless : Products.body :=
  Products.mkBody (Some 4) None (Some (Num (6 # 1))) (Some "L") (Some "blue")
                  (Some "accessory") None.

Definition stranger_login : Auth.login_body :=
  Auth.mkLoginBody (Some "nobody@shop.test") (Some "x").

Definition bob_wrong_password : Auth.login_body :=
  Auth.mkLoginBody (Some "bob@shop.test") (Some "guess").

(** A token of a user whose row is gone, Carol's and Bob's live tokens. *)
Definition ghost_token : token :=
  Signed (mkClaims (Some 9) (Some "ghost@shop.test") (Some "admin") 0 None)
         "s3cret".

Definition carol_token : token :=
  Signed (mkClaims (Some 3) (Some "carol@shop.test") (Some "admin") 0 None)
         "s3cret".

Definition bob_token : token := Signed (bob_claims (Some 3600)) "s3cret".

Definition bearing (t : token) : request :=
  mkRequest (Some (Bearer t)) None.

(** A router that answers 200 whatever it is asked. *)
Definition ok_router : request -> M (response unit) :=
  fun _ => ret (envelope 200 "success" "ok").

(** Bob's token, expired from second 10 on. *)
Definition expired_token : token := Signed (bob_claims (Some 10)) "s3cret".

(** The same claims under a signature of another key. *)
Definition forged_token : token := Signed (bob_claims (Some 10)) "guess".

End Sample.

(* ===================================================================== *)
(** ** route/auth.js: registration *)
(* ===================================================================== *)

(** What the sources do not show of the [users] table: the identifier the
    store gives a new row, and the defaults of the columns registration
    does not write. *)
Record users_schema : Type := mkUsersSchema {
  next_user_id     : store -> Z;
  phone_default    : option string;
  address_default  : option string;
  disabled_default : option bool
}.

(** The columns [RETURNING id, fullname, username, email, role] hands
    back. *)
Record registered : Type := mkRegistered {
  g_id       : Z;
  g_fullname : string;
  g_username : string;
  g_email    : string;
  g_role     : string
}.

Module Registration.
Section WithSchema.
Variable schema : users_schema.

(** [bcrypt.hash(data, rounds)] *)
Variable hash : string -> nat -> string.

Record body : Type := mkBody {
  b_fullname : option string;
  b_username : option string;
  b_email    : option string;
  b_password : option string;
  b_role     : option string
}.

(** [SELECT * FROM users WHERE email = $1 OR username = $2] *)
Definition users_by_email_or_username (email username : option string)
  : statement (list user) :=
  fun s => (filter (fun u => sql_eqS (u_email u) email
                             || sql_eqS (u_username u) username)
                   (users s), s).

(** [INSERT INTO users (fullname, username, email, password, role)
     VALUES ($1, $2, $3, $4, $5)
     RETURNING id, fullname, username, email, role] *)
Definition insert_user (fullname username email password role : string)
  : statement (list registered) :=
  fun s =>
    let id := next_user_id schema s in
    let row := mkUser id fullname username email password
                      (phone_default schema) (address_default schema) role
                      (disabled_default schema) in
    ([mkRegistered id fullname username email role],
     mkStore (users s ++ [row]) (tokens s) (products s) (orders s)).

(** [router.post("/register", ...)] *)
Definition register (b : body) : M (response registered) :=
  match b_fullname b, b_username b, b_email b, b_password b, b_role b with
  | Some fullname, Some username, Some email, Some password, Some role =>
      if negb (Js.truthy_str fullname) || negb (Js.truthy_str username)
         || negb (Js.truthy_str email) || negb (Js.truthy_str password)
         || negb (Js.truthy_str role)
      then ret (envelope 400 "error" "Semua field wajib diisi")
      else
        catch
          (check <- Db.pool_query
                      (users_by_email_or_username (Some email) (Some username)) ;;
           match check with
           | _ :: _ =>
               ret (envelope 400 "failed" "Email atau username sudah dipakai")
           | [] =>
               let hashedPassword := hash password 12%nat in
               insert <- Db.pool_query
                           (insert_user fullname username email hashedPassword
                                        role) ;;
               ret (mkResponse 201 (Some "success")
                               (Some "Akun berhasil dibuat") None
                               (hd_error insert))
           end)
          (fun err => ret (envelope 500 "error" err))
  | _, _, _, _, _ => ret (envelope 400 "error" "Semua field wajib diisi")
  end.

End WithSchema.
End Registration.

(* ===================================================================== *)
(** ** route/products.js: list, read and delete *)
(* ===================================================================== *)

(** The columns [SELECT id, name, price, size, color, category, available]
    hands back. *)
Record product_item : Type := mkProductItem {
  i_id        : Z;
  i_name      : option string;
  i_price     : option jsnum;
  i_size      : option string;
  i_color     : option string;
  i_category  : option string;
  i_available : option bool
}.

Definition item_of (p : product) : product_item :=
  mkProductItem (pr_id p) (pr_name p) (pr_price p) (pr_size p) (pr_color p)
                (pr_category p) (pr_available p).

(** [{ count, data }] *)
Record listing : Type := mkListing {
  l_count : nat;
  l_data  : list product_item
}.

Module ProductRoutes.

(** [SELECT id, name, price, size, color, category, available FROM
     products], with [WHERE available = $1] when [filtered]; [$1] is
     [true]. *)
Definition select_items (filtered : bool) : statement (list product_item) :=
  fun s =>
    (map item_of
         (if filtered
          then filter (fun p => match pr_available p with
                                | Some true => true
                                | _ => false
                                end) (products s)
          else products s), s).

(** [router.get('/', ...)]; [available] is [req.query.available]. *)
Definition get_all (available : option string) : M (response listing) :=
  let filtered := match available with
                  | Some v => (v =? "true")%string
                  | None => false
                  end in
  catch
    (rows <- Db.pool_query (select_items filtered) ;;
     ret (mkResponse 200 None None None
                     (Some (mkListing (List.length rows) rows))))
    (fun _ => ret (error_only 500 "Server error")).

(** [router.get('/:id', ...)] *)
Definition get (id : Z) : M (response product) :=
  catch
    (rows <- Db.pool_query (Sql.product_by_id id) ;;
     match rows with
     | [] => ret (error_only 404 "Produk tidak ditemukan")
     | row :: _ => ret (mkResponse 200 None None None (Some row))
     end)
    (fun _ => ret (error_only 500 "Server error")).

(** [DELETE FROM products WHERE id = $1 RETURNING *] *)
Definition delete_product (id : Z) : statement (list product) :=
  fun s =>
    (filter (fun p => pr_id p =? id) (products s),
     mkStore (users s) (tokens s)
             (filter (fun p => negb (pr_id p =? id)) (products s))
             (orders s)).

(** [router.delete('/:id', ...)]: 204 carries no body. *)
Definition delete (id : Z) : M (response product) :=
  catch
    (rows <- Db.pool_query (delete_product id) ;;
     match rows with
     | [] => ret (error_only 404 "Produk tidak ditemukan")
     | _ :: _ => ret (mkResponse 204 None None None None)
     end)
    (fun _ => ret (error_only 500 "Server error")).

End ProductRoutes.

(* ===================================================================== *)
(** ** route/users.js: delete *)
(* ===================================================================== *)

(** The columns [RETURNING id, fullname, email] hands back. *)
Record deleted_user : Type := mkDeletedUser {
  x_id       : Z;
  x_fullname : string;
  x_email    : string
}.

Module UserRoutes.

(** [DELETE FROM users WHERE id = $1 RETURNING id, fullname, email] *)
Definition delete_user (id : Z) : statement (list deleted_user) :=
  fun s =>
    (map (fun u => mkDeletedUser (u_id u) (u_fullname u) (u_email u))
         (filter (fun u => u_id u =? id) (users s)),
     mkStore (filter (fun u => negb (u_id u =? id)) (users s))
             (tokens s) (products s) (orders s)).

(** [router.delete("/:id", ...)] *)
Definition delete (id : Z) : M (response deleted_user) :=
  catch
    (result <- Db.pool_query (delete_user id) ;;
     match result with
     | [] => ret (envelope 404 "error" "User tidak ditemukan")
     | row :: _ =>
         ret (mkResponse 200 (Some "success") (Some "User berhasil dihapus")
                         None (Some row))
     end)
    (fun err => ret (envelope 500 "error" err)).

End UserRoutes.

(* ===================================================================== *)
(** ** Vocabulary of the further properties *)
(* ===================================================================== *)

(** The identifiers of the products of a store. *)
Definition product_ids (s : store) : list Z := map pr_id (products s).

(** No two users share an email or a username. *)
Definition unique_users (s : store) : Prop :=
  NoDup (map u_email (users s)) /\ NoDup (map u_username (users s)).

(** The row registration writes for a body whose five fields are there. *)
Definition registered_user (schema : users_schema)
           (hash : string -> nat -> string) (s : store)
           (fullname username email password role : string) : user :=
  mkUser (next_user_id schema s) fullname username email (hash password 12%nat)
         (phone_default schema) (address_default schema) role
         (disabled_default schema).

Module Demo.

Definition schema0 : users_schema :=
  mkUsersSchema (fun s => COALESCE (sql_MAX (map u_id (users s))) 0 + 1)
                None None (Some false).

(** A stand-in for bcrypt that [Sample.compare0] accepts. *)
Definition hash0 (password : string) (rounds : nat) : string :=
  "hash-" ++ password.

Definition dave : Registration.body :=
  Registration.mkBody (Some "Dave") (Some "dave") (Some "dave@shop.test")
                      (Some "d") (Some "cashier").

Definition dave_again : Registration.body :=
  Registration.mkBody (Some "David") (Some "dave2") (Some "dave@shop.test")
                      (Some "dd") (Some "admin").

Definition no_role : Registration.body :=
  Registration.mkBody (Some "Eve") (Some "eve") (Some "eve@shop.test")
                      (Some "e") None.

Definition free_gift : Products.body :=
  Products.mkBody (Some 1) (Some "sticker") (Some (Num (0 # 1))) (Some "S")
                  (Some "white") (Some "accessory") (Some true).

Definition refund : Products.body :=
  Products.mkBody (Some 1) (Some "sticker") (Some (Num (-1 # 2))) (Some "S")
                  (Some "white") (Some "accessory") None.


Definition bad_category : Products.body :=
  Products.mkBody (Some 1) (Some "sticker") (Some (Num (-1 # 2))) (Some "S")
                  (Some "white") (Some "toys") None.

Definition dave_login : Auth.login_body :=
  Auth.mkLoginBody (Some "dave@shop.test") (Some "d").

(** Bob's refresh token. *)
Definition bob_refresh : token :=
  Signed (mkClaims (Some 2) None None 0 (Some 604800)) "r3fresh".

(** Alice, stored with role "Admin", and her token. *)
Definition alice_token : token :=
  Signed (mkClaims (Some 1) (Some "alice@shop.test") (Some "Admin") 0 None)
         "s3cret".

(** A body that makes its target a cashier. *)
Definition demote : Users.body :=
  Users.mkBody None None None (Some "cashier") None.

Definition two_pairs : store :=
  mkStore [Sample.alice; Sample.bob; Sample.carol]
          [mkTokenRow (Some 1) alice_token alice_token 5;
           mkTokenRow (Some 2) Sample.bob_token bob_refresh 7]
          [] [].

End Demo.

(* ===================================================================== *)
(** * Properties *)
(* ===================================================================== *)

(** ** Strings *)

Lemma lower_ascii_idem (c : ascii) :
  Js.lower_ascii (Js.lower_ascii c) = Js.lower_ascii c.
Proof.
  destruct c as [[] [] [] [] [] [] [] []]; reflexivity.
Qed.

Lemma toLowerCase_idem (s : string) :
  Js.toLowerCase (Js.toLowerCase s) = Js.toLowerCase s.
Proof.
  induction s as [|c r IH]; simpl; [reflexivity|].
  now rewrite lower_ascii_idem, IH.
Qed.

Lemma includes_In (l : list string) (x : string) :
  Js.includes l x = true <-> In x l.
Proof.
  unfold Js.includes. rewrite existsb_exists. split.
  - intros (y & Hy & Heq). apply String.eqb_eq in Heq. now subst.
  - intros H. exists x. split; [assumption | apply String.eqb_refl].
Qed.

(** ** The token helper and the token stage *)

Section TokenFacts.
Variable E : env.

Lemma helper_verify_ok t secret now c :
  Jwt.verify t (Helper.effective_secret E secret) now = Ok c ->
  Helper.verifyToken E t secret now = Some c.
Proof.
  unfold Helper.verifyToken. intros H. now rewrite H.
Qed.

Lemma helper_verify_throw t secret now msg :
  Jwt.verify t (Helper.effective_secret E secret) now = Throw msg ->
  Helper.verifyToken E t secret now = None.
Proof.
  unfold Helper.verifyToken. intros H. now rewrite H.
Qed.

Lemma verify_expired c k e now :
  c_exp c = Some e -> e <= now ->
  Jwt.verify (Signed c k) (Some k) now = Throw "jwt expired".
Proof.
  intros He Hle. simpl. rewrite String.eqb_refl, He. simpl.
  destruct (Z.leb_spec e now); [reflexivity | lia].
Qed.

Lemma verify_tampered c k sk now :
  k <> sk ->
  Jwt.verify (Signed c k) (Some sk) now = Throw "invalid signature".
Proof.
  intros Hk. simpl. destruct (String.eqb_spec k sk); [contradiction | reflexivity].
Qed.

Lemma verify_live c k now :
  match c_exp c with Some e => now < e | None => True end ->
  Jwt.verify (Signed c k) (Some k) now = Ok c.
Proof.
  intros H. simpl. rewrite String.eqb_refl. simpl.
  destruct (c_exp c) as [e|]; [|reflexivity].
  destruct (Z.leb_spec e now); [lia | reflexivity].
Qed.

End TokenFacts.

(** C8, as stated: a caller of the helper can tell an expired token from an
    otherwise invalid one.  It cannot: at second 20 the helper answers
    [null] both for a token that expired at second 10 and for one signed
    with a wrong key. *)
Lemma helper_verifyToken_conflates_expired :
  Jwt.verify Sample.expired_token (Some "s3cret") 20 = Throw "jwt expired" /\
  Jwt.verify Sample.forged_token (Some "s3cret") 20 = Throw "invalid signature" /\
  Helper.verifyToken Sample.E0 Sample.expired_token None 20 = None /\
  Helper.verifyToken Sample.E0 Sample.forged_token None 20 = None /\
  ~ (forall t1 t2 : token,
        Jwt.verify t1 (Some "s3cret") 20 = Throw "jwt expired" ->
        Jwt.verify t2 (Some "s3cret") 20 = Throw "invalid signature" ->
        Helper.verifyToken Sample.E0 t1 None 20
        <> Helper.verifyToken Sample.E0 t2 None 20).
Proof.
  repeat split; try reflexivity.
  intros H.
  apply (H Sample.expired_token Sample.forged_token); reflexivity.
Qed.

(** C8, amended: the helper never throws; it returns the decoded claims
    when [jwt.verify] succeeds and [null] on every failure -- malformed
    text, a signature that does not verify, an expired token -- with
    nothing in the result to tell these apart. *)
Theorem helper_verifyToken_total (E : env) (t : token)
        (secret : option string) (now : Z) :
  (forall c, Jwt.verify t (Helper.effective_secret E secret) now = Ok c ->
             Helper.verifyToken E t secret now = Some c) /\
  (forall msg, Jwt.verify t (Helper.effective_secret E secret) now = Throw msg ->
               Helper.verifyToken E t secret now = None) /\
  (forall s, t = Malformed s -> Helper.verifyToken E t secret now = None) /\
  (forall c k sk, t = Signed c k ->
                  Helper.effective_secret E secret = Some sk -> k <> sk ->
                  Helper.verifyToken E t secret now = None) /\
  (forall c k e, t = Signed c k -> c_exp c = Some e -> e <= now ->
                 Helper.verifyToken E t secret now = None).
Proof.
  split; [intros c; apply helper_verify_ok|].
  split; [intros msg; apply helper_verify_throw|].
  split; [|split].
  - intros s ->. unfold Helper.verifyToken. simpl.
    destruct (s =? EmptyString)%string; reflexivity.
  - intros c k sk -> Hs Hk.
    apply helper_verify_throw with (msg := "invalid signature").
    rewrite Hs. now apply verify_tampered.
  - intros c k e -> He Hle. unfold Helper.verifyToken. simpl.
    destruct (Helper.effective_secret E secret) as [sk|]; [|reflexivity].
    destruct (negb (k =? sk)%string); [reflexivity|].
    rewrite He. destruct (Z.leb_spec e now); [reflexivity | lia].
Qed.

Lemma helper_verifyToken_total_witness :
  Helper.verifyToken Sample.E0 Sample.expired_token None 20 = None /\
  Helper.verifyToken Sample.E0 Sample.forged_token None 20 = None /\
  Helper.verifyToken Sample.E0 Sample.expired_token None 5
  = Some (Sample.bob_claims (Some 10)).
Proof.
  pose proof (helper_verifyToken_total Sample.E0 Sample.expired_token None 20)
    as (_ & _ & _ & _ & Hexp).
  pose proof (helper_verifyToken_total Sample.E0 Sample.forged_token None 20)
    as (_ & _ & _ & Hsig & _).
  pose proof (helper_verifyToken_total Sample.E0 Sample.expired_token None 5)
    as (Hok & _).
  split; [|split].
  - apply (Hexp (Sample.bob_claims (Some 10)) "s3cret" 10);
      [reflexivity | reflexivity | lia].
  - apply (Hsig (Sample.bob_claims (Some 10)) "guess" "s3cret");
      [reflexivity | reflexivity | discriminate].
  - apply Hok. reflexivity.
Defined.

(** ** The token stage *)

Lemma invalid_message_not_expired (msg : string) :
  "Token invalid: " ++ msg <> expired_message.
Proof.
  unfold expired_message. simpl. discriminate.
Qed.

(** C6: the token stage answers 401 when the authorization header is
    absent (or empty); on an expired token it answers 401 with the expiry
    message, on any other verification failure 401 with the generic
    message, which is never the expiry message; on success it calls [next]
    with [req.user = {id, role}] taken from the token claims. *)
Theorem verifyToken_stage (D : Type) (E : env) (now : Z) (req : request) :
  (authorization req = None \/ authorization req = Some (Plain (Malformed EmptyString)) ->
   @verifyToken E D now req
   = Respond (envelope 401 "error" "Token tidak ditemukan atau belum login")) /\
  (forall h, authorization req = Some h -> text_falsy h = false ->
     (Jwt.verify (strip_bearer h) (JWT_SECRET E) now = Throw "jwt expired" ->
      @verifyToken E D now req = Respond (envelope 401 "error" expired_message)) /\
     (forall msg, Jwt.verify (strip_bearer h) (JWT_SECRET E) now = Throw msg ->
                  msg <> "jwt expired" ->
        @verifyToken E D now req
        = Respond (envelope 401 "error" ("Token invalid: " ++ msg)) /\
        "Token invalid: " ++ msg <> expired_message) /\
     (forall c, Jwt.verify (strip_bearer h) (JWT_SECRET E) now = Ok c ->
        @verifyToken E D now req
        = Next (mkRequest (authorization req)
                          (Some (mkReqUser (c_id c) (c_role c)))))) /\
  (forall c k e, JWT_SECRET E = Some k -> c_exp c = Some e -> e <= now ->
     authorization req = Some (Bearer (Signed c k)) ->
     @verifyToken E D now req = Respond (envelope 401 "error" expired_message)).
Proof.
  unfold verifyToken. split; [|split].
  - intros [-> | ->]; reflexivity.
  - intros h -> Hf. rewrite Hf. split; [|split].
    + intros ->. reflexivity.
    + intros msg -> Hmsg. split; [|apply invalid_message_not_expired].
      destruct (String.eqb_spec msg "jwt expired"); [contradiction | reflexivity].
    + intros c ->. reflexivity.
  - intros c k e Hk He Hle ->. cbn [text_falsy strip_bearer].
    rewrite Hk, (verify_expired c k He Hle). reflexivity.
Qed.

Lemma verifyToken_stage_witness :
  @verifyToken Sample.E0 unit 20
     (mkRequest (Some (Bearer Sample.expired_token)) None)
  = Respond (envelope 401 "error" expired_message) /\
  @verifyToken Sample.E0 unit 20
     (mkRequest (Some (Bearer Sample.forged_token)) None)
  = Respond (envelope 401 "error" "Token invalid: invalid signature") /\
  @verifyToken Sample.E0 unit 5
     (mkRequest (Some (Bearer Sample.expired_token)) None)
  = Next (mkRequest (Some (Bearer Sample.expired_token))
                    (Some (mkReqUser (Some 2) (Some "cashier")))) /\
  @verifyToken Sample.E0 unit 5 (mkRequest None None)
  = Respond (envelope 401 "error" "Token tidak ditemukan atau belum login").
Proof.
  pose proof (verifyToken_stage unit Sample.E0 20
                (mkRequest (Some (Bearer Sample.expired_token)) None))
    as (_ & _ & Hexp).
  pose proof (verifyToken_stage unit Sample.E0 20
                (mkRequest (Some (Bearer Sample.forged_token)) None))
    as (_ & Hbad & _).
  pose proof (verifyToken_stage unit Sample.E0 5
                (mkRequest (Some (Bearer Sample.expired_token)) None))
    as (_ & Hok & _).
  pose proof (verifyToken_stage unit Sample.E0 5 (mkRequest None None))
    as (Hnone & _).
  split; [|split; [|split]].
  - apply (Hexp (Sample.bob_claims (Some 10)) "s3cret" 10);
      [reflexivity | reflexivity | lia | reflexivity].
  - destruct (Hbad (Bearer Sample.forged_token) eq_refl eq_refl)
      as (_ & Hmsg & _).
    apply (Hmsg "invalid signature"); [reflexivity | discriminate].
  - destruct (Hok (Bearer Sample.expired_token) eq_refl eq_refl)
      as (_ & _ & Hc).
    apply (Hc (Sample.bob_claims (Some 10))). reflexivity.
  - apply Hnone. left. reflexivity.
Defined.

(** ** Running handlers *)

Lemma nth_tl {A : Type} (l : list A) (k : nat) (d : A) :
  nth k (tl l) d = nth (S k) l d.
Proof. destruct l; [destruct k|]; reflexivity. Qed.

Lemma call_fault {A : Type} (run : world -> A * world) (w : world) (m : string) :
  Db.next_fault w = Some m ->
  Db.call run w = (Throw m, Db.log (Db.tick w)).
Proof. unfold Db.call. now intros ->. Qed.

Lemma call_ok {A : Type} (run : world -> A * world) (w : world) :
  Db.next_fault w = None ->
  Db.call run w = (Ok (fst (run (Db.tick w))), Db.log (snd (run (Db.tick w)))).
Proof. unfold Db.call. intros ->. now destruct (run (Db.tick w)). Qed.

Lemma pool_query_fault {A : Type} (q : statement A) (w : world) (m : string) :
  Db.next_fault w = Some m ->
  Db.pool_query q w = (Throw m, Db.log (Db.tick w)).
Proof. apply call_fault. Qed.

Lemma pool_query_ok {A : Type} (q : statement A) (w : world) :
  Db.next_fault w = None ->
  Db.pool_query q w
  = (Ok (fst (q (committed w))),
     mkWorld (snd (q (committed w))) (txn w) (clients w) (tl (faults w))
             (snd (q (committed w)) :: hist w)).
Proof.
  intros H. unfold Db.pool_query. rewrite call_ok by assumption. simpl.
  now destruct (q (committed w)).
Qed.

(** The rules of the triples. *)
Section HoareRules.
Context {A B : Type}.

Lemma hoare_ret (P : world -> Prop) (a : A) (Q : outcome A -> world -> Prop) :
  (forall w, P w -> Q (Ok a) w) -> hoare P (ret a) Q.
Proof. intros H w Hw. simpl. auto. Qed.

Lemma hoare_raise (P : world -> Prop) (e : string)
      (Q : outcome A -> world -> Prop) :
  (forall w, P w -> Q (Throw e) w) -> hoare P (raise e) Q.
Proof. intros H w Hw. simpl. auto. Qed.

Lemma hoare_liftO (P : world -> Prop) (o : outcome A)
      (Q : outcome A -> world -> Prop) :
  (forall w, P w -> Q o w) -> hoare P (liftO o) Q.
Proof. intros H w Hw. simpl. auto. Qed.

Lemma hoare_bind (P : world -> Prop) (m : M A) (k : A -> M B)
      (R : outcome A -> world -> Prop) (Q : outcome B -> world -> Prop) :
  hoare P m R ->
  (forall a, hoare (R (Ok a)) (k a) Q) ->
  (forall e w, R (Throw e) w -> Q (Throw e) w) ->
  hoare P (bind m k) Q.
Proof.
  intros Hm Hk He w Hw. specialize (Hm w Hw). simpl.
  destruct (m w) as [[a|e] w1]; simpl in *.
  - apply Hk, Hm.
  - apply He, Hm.
Qed.

Lemma hoare_catch (P : world -> Prop) (m : M A) (h : string -> M A)
      (R : outcome A -> world -> Prop) (Q : outcome A -> world -> Prop) :
  hoare P m R ->
  (forall a w, R (Ok a) w -> Q (Ok a) w) ->
  (forall e, hoare (R (Throw e)) (h e) Q) ->
  hoare P (catch m h) Q.
Proof.
  intros Hm Hok Hh w Hw. specialize (Hm w Hw). simpl.
  destruct (m w) as [[a|e] w1]; simpl in *.
  - apply Hok, Hm.
  - apply Hh, Hm.
Qed.

Lemma hoare_pool_query (P : world -> Prop) (q : statement A)
      (Q : outcome A -> world -> Prop) :
  (forall w e, P w ->
     Q (Throw e) (mkWorld (committed w) (txn w) (clients w) (tl (faults w))
                          (committed w :: hist w))) ->
  (forall w, P w ->
     Q (Ok (fst (q (committed w))))
       (mkWorld (snd (q (committed w))) (txn w) (clients w) (tl (faults w))
                (snd (q (committed w)) :: hist w))) ->
  hoare P (Db.pool_query q) Q.
Proof.
  intros Hthrow Hok w Hw.
  destruct (Db.next_fault w) as [e|] eqn:Hf.
  - rewrite pool_query_fault with (m := e) by exact Hf.
    unfold Db.log, Db.tick. simpl. now apply Hthrow.
  - rewrite pool_query_ok by exact Hf. simpl. now apply Hok.
Qed.

End HoareRules.

(** One call of [pool.query]: either the waiting fault, or the answer. *)
Ltac run_query :=
  match goal with
  | H : context [Db.pool_query ?q ?w] |- _ =>
      let Hf := fresh "Hf" in
      let e := fresh "e" in
      destruct (Db.next_fault w) as [e|] eqn:Hf;
      [ rewrite (@pool_query_fault _ q w e Hf) in H
      | rewrite (@pool_query_ok _ q w Hf) in H ]
  | |- context [Db.pool_query ?q ?w] =>
      let Hf := fresh "Hf" in
      let e := fresh "e" in
      destruct (Db.next_fault w) as [e|] eqn:Hf;
      [ rewrite (@pool_query_fault _ q w e Hf)
      | rewrite (@pool_query_ok _ q w Hf) ]
  end.

(** ** Login *)

(** What a login that answers 200 has done. *)
Lemma login_200_inv E compare now body w r w' :
  Auth.login E compare now body w = (Ok r, w') -> code r = 200 ->
  exists user rest k rk,
    fst (Sql.users_by_email (Auth.lb_email body) (committed w)) = user :: rest /\
    JWT_SECRET E = Some k /\ JWT_REFRESH_SECRET E = Some rk /\
    exists exp,
      (if (Js.toLowerCase (u_role user) =? "admin")%string then exp = None
       else exists d, JWT_ACCESS_EXPIRATION E = Some d /\ exp = Some (now + d)) /\
      let access := Signed (access_claims user now exp) k in
      let refresh := Signed (refresh_claims user now) rk in
      r = mkResponse 200 (Some "success") (Some "Login berhasil") None
            (Some (Auth.mkLoginData (u_id user) (u_fullname user)
                                    (u_email user) (u_role user)
                                    access refresh)) /\
      users (committed w') = users (committed w) /\
      tokens (committed w')
      = (filter (fun r => negb (sql_eq_optZ (tk_user_id r) (Some (u_id user))))
                (tokens (committed w))
         ++ [mkTokenRow (Some (u_id user)) access refresh now])%list.
Proof.
  unfold Auth.login. cbn [catch Exc_M bind Monad_M ret]. intros H Hc.
  run_query; cbn [fst snd] in H.
  { inversion H; subst. discriminate. }
  cbn [Sql.users_by_email fst snd] in *.
  destruct (filter _ (users (committed w))) as [|user rest] eqn:Hrows.
  { inversion H; subst. discriminate. }
  unfold Auth.bcrypt_compare in H.
  destruct (Auth.lb_password body) as [p|]; cbn [raise Exc_M ret Monad_M] in H.
  2:{ inversion H; subst. discriminate. }
  destruct (compare p (u_password user)); cbn [negb] in H.
  2:{ inversion H; subst. discriminate. }
  unfold liftO, Helper.generateAccessToken, Helper.generateRefreshToken,
    Helper.ACCESS_SECRET, Helper.REFRESH_SECRET, Jwt.sign in H.
  cbn [p_id p_email p_role] in H.
  destruct (Js.toLowerCase (u_role user) =? "admin")%string eqn:Hadm;
    destruct (JWT_SECRET E) as [k|];
    destruct (JWT_ACCESS_EXPIRATION E) as [d|];
    destruct (JWT_REFRESH_SECRET E) as [rk|];
    try (inversion H; subst; discriminate);
    (run_query; cbn [fst snd] in H; [inversion H; subst; discriminate|]);
    (run_query; cbn [fst snd] in H; [inversion H; subst; discriminate|]);
    inversion H; subst; clear H;
    exists user, rest, k, rk; (split; [reflexivity|]); (split; [reflexivity|]);
    (split; [reflexivity|]); rewrite Hadm.
  all: first [ exists None; split; [reflexivity|]
             | exists (Some (now + d)); split; [exists d; split; reflexivity|] ].
  all: split; [reflexivity | split; reflexivity].
Qed.

(** C1: after every successful login (200) the access token is signed
    over the stored user's id, email and role; if the stored role is
    ["admin"] in any letter case the token carries no [exp] claim and
    verifies at every later time; for every other role a duration [d] is
    configured, the token's [exp] is the login time plus [d], and it
    verifies before that time and is reported expired from it on. *)
Theorem login_access_token_expiry E compare now body w r w' :
  Auth.login E compare now body w = (Ok r, w') -> code r = 200 ->
  exists user rest d k c,
    fst (Sql.users_by_email (Auth.lb_email body) (committed w)) = user :: rest /\
    r_data r = Some d /\ JWT_SECRET E = Some k /\
    Auth.ld_accessToken d = Signed c k /\
    c_id c = Some (u_id user) /\ c_email c = Some (u_email user) /\
    c_role c = Some (u_role user) /\ c_iat c = now /\
    (Js.toLowerCase (u_role user) = "admin" ->
       token_exp (Auth.ld_accessToken d) = None /\
       forall t, Jwt.verify (Auth.ld_accessToken d) (JWT_SECRET E) t = Ok c) /\
    (Js.toLowerCase (u_role user) <> "admin" ->
       exists dur, JWT_ACCESS_EXPIRATION E = Some dur /\
         token_exp (Auth.ld_accessToken d) = Some (now + dur) /\
         forall t,
           (t < now + dur ->
            Jwt.verify (Auth.ld_accessToken d) (JWT_SECRET E) t = Ok c) /\
           (now + dur <= t ->
            Jwt.verify (Auth.ld_accessToken d) (JWT_SECRET E) t
            = Throw "jwt expired")).
Proof.
  intros H Hc.
  destruct (login_200_inv _ _ _ _ _ H Hc)
    as (user & rest & k & rk & Hrows & Hk & _ & exp & Hexp & Hr & _ & _).
  subst r. cbn [r_data].
  eexists user, rest, _, k, (access_claims user now exp).
  split; [exact Hrows|]. split; [reflexivity|]. split; [exact Hk|].
  cbn [Auth.ld_accessToken token_exp access_claims c_id c_email c_role c_iat c_exp].
  repeat (split; [reflexivity|]).
  rewrite Hk. split.
  - intros Hadm. apply String.eqb_eq in Hadm. rewrite Hadm in Hexp. subst exp.
    split; [reflexivity|]. intros t. now apply verify_live.
  - intros Hadm. apply String.eqb_neq in Hadm. rewrite Hadm in Hexp.
    destruct Hexp as (dur & Hdur & ->). exists dur.
    split; [exact Hdur|]. split; [reflexivity|]. intros t. split; intros Ht.
    + now apply verify_live.
    + now apply verify_expired with (e := now + dur).
Qed.

Lemma login_access_token_expiry_witness :
  (exists r w' d,
     Auth.login Sample.E0 Sample.compare0 100 Sample.alice_login
                (initial_world Sample.s0) = (Ok r, w') /\
     code r = 200 /\ r_data r = Some d /\
     token_exp (Auth.ld_accessToken d) = None) /\
  (exists r w' d,
     Auth.login Sample.E0 Sample.compare0 100 Sample.bob_login
                (initial_world Sample.s0) = (Ok r, w') /\
     code r = 200 /\ r_data r = Some d /\
     token_exp (Auth.ld_accessToken d) = Some 3700).
Proof.
  split.
  - destruct (Auth.login Sample.E0 Sample.compare0 100 Sample.alice_login
                         (initial_world Sample.s0)) as [[r|m] w'] eqn:Hrun;
      [|discriminate Hrun].
    assert (Hc : code r = 200) by (inversion Hrun; reflexivity).
    destruct (login_access_token_expiry _ _ _ _ _ Hrun Hc)
      as (user & rest & d & k & c & Hrows & Hd & _ & _ & _ & _ & _ & _ & Hadm & _).
    exists r, w', d. repeat (split; [first [reflexivity | assumption]|]).
    apply Hadm. inversion Hrows; subst. reflexivity.
  - destruct (Auth.login Sample.E0 Sample.compare0 100 Sample.bob_login
                         (initial_world Sample.s0)) as [[r|m] w'] eqn:Hrun;
      [|discriminate Hrun].
    assert (Hc : code r = 200) by (inversion Hrun; reflexivity).
    destruct (login_access_token_expiry _ _ _ _ _ Hrun Hc)
      as (user & rest & d & k & c & Hrows & Hd & _ & _ & _ & _ & _ & _ & _ & Hoth).
    exists r, w', d. repeat (split; [first [reflexivity | assumption]|]).
    destruct Hoth as (dur & Hdur & Hexp & _).
    + inversion Hrows; subst. discriminate.
    + inversion Hdur; subst. exact Hexp.
Defined.

(** C5, as stated: an unknown email is answered 404 and a wrong password
    401.  Both are answered 400: no sample user has the stranger's email,
    Bob's password does not match, and the status is 400 each time. *)
Lemma login_failures_are_400 :
  fst (Sql.users_by_email (Auth.lb_email Sample.stranger_login) Sample.s0) = [] /\
  fst (Auth.login Sample.E0 Sample.compare0 100 Sample.stranger_login
                  (initial_world Sample.s0))
  = Ok (envelope 400 "error" "Email tidak ditemukan") /\
  fst (Sql.users_by_email (Auth.lb_email Sample.bob_wrong_password) Sample.s0)
  = [Sample.bob] /\
  Sample.compare0 "guess" (u_password Sample.bob) = false /\
  fst (Auth.login Sample.E0 Sample.compare0 100 Sample.bob_wrong_password
                  (initial_world Sample.s0))
  = Ok (envelope 400 "error" "Password salah") /\
  ~ (forall r w',
       Auth.login Sample.E0 Sample.compare0 100 Sample.stranger_login
                  (initial_world Sample.s0) = (Ok r, w') -> code r = 404) /\
  ~ (forall r w',
       Auth.login Sample.E0 Sample.compare0 100 Sample.bob_wrong_password
                  (initial_world Sample.s0) = (Ok r, w') -> code r = 401).
Proof.
  repeat (split; [reflexivity|]). split.
  - intros H. specialize (H _ _ eq_refl). discriminate H.
  - intros H. specialize (H _ _ eq_refl). discriminate H.
Qed.

(** C5, amended: when the store answers, a login whose email matches no
    user row is answered 400 "Email tidak ditemukan", and a login whose
    password does not match the stored hash of the first matching row is
    answered 400 "Password salah"; neither changes the store. *)
Theorem login_rejections E compare now body w :
  Db.next_fault w = None ->
  (fst (Sql.users_by_email (Auth.lb_email body) (committed w)) = [] ->
   exists w',
     Auth.login E compare now body w
     = (Ok (envelope 400 "error" "Email tidak ditemukan"), w') /\
     committed w' = committed w) /\
  (forall user rest p,
     fst (Sql.users_by_email (Auth.lb_email body) (committed w)) = user :: rest ->
     Auth.lb_password body = Some p ->
     compare p (u_password user) = false ->
     exists w',
       Auth.login E compare now body w
       = (Ok (envelope 400 "error" "Password salah"), w') /\
       committed w' = committed w).
Proof.
  intros Hf. unfold Auth.login. cbn [catch Exc_M bind Monad_M ret].
  rewrite pool_query_ok by exact Hf. split.
  - intros ->. eexists. split; reflexivity.
  - intros user rest p -> Hp Hcmp. unfold Auth.bcrypt_compare.
    rewrite Hp. cbn [ret Monad_M]. rewrite Hcmp. cbn [negb].
    eexists. split; reflexivity.
Qed.

Lemma login_rejections_witness :
  (exists w',
     Auth.login Sample.E0 Sample.compare0 100 Sample.stranger_login
                (initial_world Sample.s0)
     = (Ok (envelope 400 "error" "Email tidak ditemukan"), w') /\
     committed w' = Sample.s0) /\
  (exists w',
     Auth.login Sample.E0 Sample.compare0 100 Sample.bob_wrong_password
                (initial_world Sample.s0)
     = (Ok (envelope 400 "error" "Password salah"), w') /\
     committed w' = Sample.s0).
Proof.
  split.
  - apply (proj1 (@login_rejections Sample.E0 Sample.compare0 100
                    Sample.stranger_login (initial_world Sample.s0) eq_refl)).
    reflexivity.
  - apply (proj2 (@login_rejections Sample.E0 Sample.compare0 100
                    Sample.bob_wrong_password (initial_world Sample.s0) eq_refl)
             Sample.bob [] "guess"); reflexivity.
Defined.

(** ** One token pair per user *)

Section TokenRows.

Lemma filter_filter_length {A : Type} (p q : A -> bool) (l : list A) :
  (List.length (filter p (filter q l)) <= List.length (filter p l))%nat.
Proof.
  induction l as [|x l IH]; simpl; [lia|].
  destruct (q x); simpl; destruct (p x); simpl; lia.
Qed.

Lemma filter_negb_nil {A : Type} (p : A -> bool) (l : list A) :
  filter p (filter (fun x => negb (p x)) l) = [].
Proof.
  induction l as [|x l IH]; simpl; [reflexivity|].
  destruct (p x) eqn:Hp; simpl; [exact IH|]. now rewrite Hp.
Qed.

Lemma rows_for_delete (uid : Z) (s : store) :
  rows_for uid (snd (Sql.delete_tokens (Some uid) s)) = [].
Proof. unfold rows_for. simpl. apply filter_negb_nil. Qed.

Lemma at_most_one_delete (id : option Z) (s : store) :
  at_most_one s -> at_most_one (snd (Sql.delete_tokens id s)).
Proof.
  intros H uid. unfold rows_for. simpl.
  etransitivity; [apply filter_filter_length | apply H].
Qed.

Lemma at_most_one_insert (uid : Z) (a r : token) (now : Z) (s : store) :
  at_most_one s -> rows_for uid s = [] ->
  at_most_one (snd (Sql.insert_token (Some uid) a r now s)).
Proof.
  intros H Hnil uid'. unfold at_most_one, rows_for in *. simpl.
  rewrite filter_app, length_app. simpl.
  destruct (Z.eqb_spec uid uid') as [->|Hne]; simpl.
  - rewrite Hnil. simpl. lia.
  - specialize (H uid'). lia.
Qed.

Lemma I_readonly {A : Type} (q : statement A) :
  (forall s, snd (q s) = s) ->
  hoare one_pair_so_far (Db.pool_query q) (fun _ w => one_pair_so_far w).
Proof.
  intros Hq. apply hoare_pool_query; unfold one_pair_so_far, observed; simpl.
  - intros w _ H. constructor; [now inversion H | exact H].
  - intros w H. rewrite Hq. constructor; [now inversion H | exact H].
Qed.

Lemma I_delete (id : option Z) :
  hoare one_pair_so_far (Db.pool_query (Sql.delete_tokens id))
        (fun o w => one_pair_so_far w /\
                    match o, id with
                    | Ok _, Some uid => rows_for uid (committed w) = []
                    | _, _ => True
                    end).
Proof.
  apply hoare_pool_query; unfold one_pair_so_far, observed.
  - intros w e H. cbn [committed hist]. split; [|exact I].
    constructor; [now inversion H | exact H].
  - intros w H. cbn [committed hist fst]. split.
    + assert (at_most_one (snd (Sql.delete_tokens id (committed w))))
        by (apply at_most_one_delete; now inversion H).
      constructor; [assumption|]. constructor; [assumption|].
      now inversion H.
    + destruct id as [uid|]; [apply rows_for_delete | exact I].
Qed.

Lemma I_insert (uid : Z) (a r : token) (now : Z) :
  hoare (fun w => one_pair_so_far w /\ rows_for uid (committed w) = [])
        (Db.pool_query (Sql.insert_token (Some uid) a r now))
        (fun _ w => one_pair_so_far w).
Proof.
  apply hoare_pool_query; unfold one_pair_so_far, observed.
  - intros w _ [H _]. cbn [committed hist].
    constructor; [now inversion H | exact H].
  - intros w [H Hnil]. cbn [committed hist].
    assert (at_most_one (snd (Sql.insert_token (Some uid) a r now (committed w))))
      by (apply at_most_one_insert; [now inversion H | exact Hnil]).
    constructor; [assumption|]. constructor; [assumption|].
    now inversion H.
Qed.

Lemma login_keeps_one_pair E compare now body :
  hoare one_pair_so_far (Auth.login E compare now body) (fun _ w => one_pair_so_far w).
Proof.
  unfold Auth.login.
  apply hoare_catch with (R := fun _ w => one_pair_so_far w);
    [| auto | intros e; apply hoare_ret; auto].
  eapply hoare_bind; [apply I_readonly; reflexivity | | auto].
  intros [|user rest]; [apply hoare_ret; auto|].
  eapply hoare_bind with (R := fun _ w => one_pair_so_far w); [| | auto].
  { unfold Auth.bcrypt_compare. destruct (Auth.lb_password body).
    - apply hoare_ret; auto.
    - apply hoare_raise; auto. }
  intros m. destruct (negb m); [apply hoare_ret; auto|].
  eapply hoare_bind with (R := fun _ w => one_pair_so_far w); [| | auto].
  { destruct (Js.toLowerCase (u_role user) =? "admin")%string;
      apply hoare_liftO; auto. }
  intros access.
  eapply hoare_bind with (R := fun _ w => one_pair_so_far w);
    [apply hoare_liftO; auto | | auto].
  intros refresh.
  eapply hoare_bind; [apply I_delete | | cbn beta; tauto].
  intros []. cbn beta iota.
  eapply hoare_bind with (R := fun _ w => one_pair_so_far w);
    [apply I_insert | | auto].
  intros []. apply hoare_ret; auto.
Qed.

Lemma logout_keeps_one_pair id :
  hoare one_pair_so_far (Auth.logout id) (fun _ w => one_pair_so_far w).
Proof.
  unfold Auth.logout.
  apply hoare_catch with (R := fun _ w => one_pair_so_far w);
    [| auto | intros e; apply hoare_ret; auto].
  eapply hoare_bind; [apply I_delete | | cbn beta; tauto].
  intros []. apply hoare_ret. cbn beta. tauto.
Qed.

Lemma serve_all_keeps_one_pair E compare calls w :
  one_pair_so_far w -> one_pair_so_far (serve_all E compare calls w).
Proof.
  revert w. induction calls as [|c calls IH]; intros w Hw; [exact Hw|].
  simpl. apply IH. destruct c as [now body | id]; simpl.
  - exact (login_keeps_one_pair E compare now body Hw).
  - exact (logout_keeps_one_pair id Hw).
Qed.

End TokenRows.

(** C3: whatever calls the auth router serves one after the other, and
    whichever of their store calls fail, every committed store seen along
    the way holds at most one token pair per user, provided that was so
    before; and after two successive successful logins of the same user
    the only token row of that user is the pair of the second login. *)
Theorem login_one_token_pair E compare :
  (forall calls w,
     one_pair_so_far w -> one_pair_so_far (serve_all E compare calls w)) /\
  (forall now1 body1 now2 body2 w r1 w1 r2 w2 d1 d2,
     Auth.login E compare now1 body1 w = (Ok r1, w1) ->
     Auth.login E compare now2 body2 w1 = (Ok r2, w2) ->
     code r1 = 200 -> code r2 = 200 ->
     r_data r1 = Some d1 -> r_data r2 = Some d2 ->
     Auth.ld_id d1 = Auth.ld_id d2 ->
     rows_for (Auth.ld_id d2) (committed w2)
     = [mkTokenRow (Some (Auth.ld_id d2)) (Auth.ld_accessToken d2)
                   (Auth.ld_refreshToken d2) now2] /\
     List.length (rows_for (Auth.ld_id d1) (committed w1)) = 1%nat /\
     List.length (rows_for (Auth.ld_id d2) (committed w2)) = 1%nat).
Proof.
  split; [intros calls w; apply serve_all_keeps_one_pair|].
  intros now1 body1 now2 body2 w r1 w1 r2 w2 d1 d2 H1 H2 Hc1 Hc2 Hd1 Hd2 Hid.
  assert (Hone : forall now body w r w' d,
             Auth.login E compare now body w = (Ok r, w') -> code r = 200 ->
             r_data r = Some d ->
             rows_for (Auth.ld_id d) (committed w')
             = [mkTokenRow (Some (Auth.ld_id d)) (Auth.ld_accessToken d)
                           (Auth.ld_refreshToken d) now]).
  { clear. intros now body w r w' d H Hc Hd.
    destruct (login_200_inv _ _ _ _ _ H Hc)
      as (user & rest & k & rk & _ & _ & _ & exp & _ & Hr & _ & Htok).
    subst r. inversion Hd; subst d; clear Hd. cbn [Auth.ld_id Auth.ld_accessToken
      Auth.ld_refreshToken]. unfold rows_for. rewrite Htok, filter_app.
    rewrite filter_negb_nil with
      (p := fun r => sql_eq_optZ (tk_user_id r) (Some (u_id user))).
    simpl. now rewrite Z.eqb_refl. }
  rewrite (Hone _ _ _ _ _ _ H1 Hc1 Hd1), (Hone _ _ _ _ _ _ H2 Hc2 Hd2).
  repeat split.
Qed.

Lemma login_one_token_pair_witness :
  one_pair_so_far
    (serve_all Sample.E0 Sample.compare0
       [Login 100 Sample.bob_login; Login 200 Sample.alice_login;
        Login 300 Sample.bob_login; Logout None]
       (initial_world Sample.s0)) /\
  List.length
    (rows_for 2
       (committed
          (serve_all Sample.E0 Sample.compare0
             [Login 100 Sample.bob_login; Login 300 Sample.bob_login]
             (initial_world Sample.s0)))) = 1%nat.
Proof.
  destruct (login_one_token_pair Sample.E0 Sample.compare0) as [Hinv Htwo].
  split.
  - apply Hinv. constructor; [|constructor]. intros uid. simpl. lia.
  - destruct (Auth.login Sample.E0 Sample.compare0 100 Sample.bob_login
                         (initial_world Sample.s0)) as [[r1|m1] w1] eqn:H1;
      [|discriminate H1].
    destruct (Auth.login Sample.E0 Sample.compare0 300 Sample.bob_login w1)
      as [[r2|m2] w2] eqn:H2;
      [|inversion H1; subst; discriminate H2].
    assert (Hw2 : serve_all Sample.E0 Sample.compare0
                    [Login 100 Sample.bob_login; Login 300 Sample.bob_login]
                    (initial_world Sample.s0) = w2)
      by (unfold serve_all; cbn [fold_left serve]; rewrite H1; cbn [snd];
          rewrite H2; reflexivity).
    rewrite Hw2.
    assert (Hd1 : exists d1, r_data r1 = Some d1 /\ Auth.ld_id d1 = 2 /\ code r1 = 200)
      by (inversion H1; subst; eexists; repeat split).
    assert (Hd2 : exists d2, r_data r2 = Some d2 /\ Auth.ld_id d2 = 2 /\ code r2 = 200)
      by (inversion H1; subst; inversion H2; subst; eexists; repeat split).
    destruct Hd1 as (d1 & Hd1 & Hi1 & Hc1), Hd2 as (d2 & Hd2 & Hi2 & Hc2).
    destruct (Htwo _ _ _ _ _ _ _ _ _ d1 d2 H1 H2 Hc1 Hc2 Hd1 Hd2
                   ltac:(congruence)) as (_ & _ & Hlen).
    rewrite Hi2 in Hlen. exact Hlen.
Defined.

(** ** The role stage *)

Lemma verifyRole_run (D : Type) allowed req w :
  id_falsy (user_id req) = false -> Db.next_fault w = None ->
  @verifyRole D allowed req w
  = (Ok (role_decision D allowed req
           (fst (Sql.user_role_flag (user_id req) (committed w)))),
     after_read w).
Proof.
  intros Hid Hf. unfold verifyRole. cbn [catch Exc_M bind Monad_M ret].
  rewrite Hid. cbn [bind Monad_M]. rewrite pool_query_ok by exact Hf.
  cbn [fst snd Sql.user_role_flag]. unfold role_decision, after_read.
  destruct (map _ _) as [|[role [[|]|]] rows]; cbn [ret Monad_M]; try reflexivity.
  all: destruct (negb _); reflexivity.
Qed.

Lemma id_falsy_nonzero (uid : Z) : uid <> 0 -> id_falsy (Some uid) = false.
Proof.
  intros H. unfold id_falsy, Js.truthy_num.
  destruct (Z.eqb_spec uid 0); [contradiction | reflexivity].
Qed.

(** A protected route, once the token has verified and the store answers. *)
Lemma protected_run (D : Type) E allowed (router : request -> M (response D))
      now req h c uid w :
  authorization req = Some h -> text_falsy h = false ->
  Jwt.verify (strip_bearer h) (JWT_SECRET E) now = Ok c ->
  c_id c = Some uid -> uid <> 0 -> Db.next_fault w = None ->
  App.protected E allowed router now req w
  = match role_decision D allowed (authenticated req c)
            (fst (Sql.user_role_flag (Some uid) (committed w))) with
    | Respond r => (Ok r, after_read w)
    | Next req2 => router req2 (after_read w)
    end.
Proof.
  intros Hh Hfalsy Hv Hid Hnz Hf. unfold App.protected, verifyToken.
  rewrite Hh, Hfalsy, Hv. cbn [bind Monad_M]. rewrite <- Hh.
  fold (authenticated req c).
  rewrite verifyRole_run; [| | exact Hf].
  - unfold user_id, authenticated. cbn [req_user_of ru_id]. rewrite Hid.
    destruct (role_decision _ _ _ _); reflexivity.
  - unfold user_id, authenticated. cbn [req_user_of ru_id]. rewrite Hid.
    now apply id_falsy_nonzero.
Qed.

Lemma filter_none {A : Type} (p : A -> bool) (l : list A) :
  (forall x, In x l -> p x = false) -> filter p l = [].
Proof.
  induction l as [|x l IH]; intros H; simpl; [reflexivity|].
  rewrite (H x (or_introl eq_refl)). apply IH. intros y Hy. apply H. now right.
Qed.

(** C10: on a protected route, when the bearer token verifies and embeds an
    identity that no row of the users table has, the role stage answers
    404 "User tidak ditemukan": neither 403 nor the handler. *)
Theorem verifyRole_unknown_user (D : Type) E allowed
        (router : request -> M (response D)) now req h c uid w :
  authorization req = Some h -> text_falsy h = false ->
  Jwt.verify (strip_bearer h) (JWT_SECRET E) now = Ok c ->
  c_id c = Some uid -> uid <> 0 -> Db.next_fault w = None ->
  (forall u, In u (users (committed w)) -> u_id u <> uid) ->
  @verifyRole D allowed (authenticated req c) w
  = (Ok (Respond (envelope 404 "error" "User tidak ditemukan")), after_read w) /\
  App.protected E allowed router now req w
  = (Ok (envelope 404 "error" "User tidak ditemukan"), after_read w).
Proof.
  intros Hh Hfalsy Hv Hid Hnz Hf Hnone.
  assert (Hrows : fst (Sql.user_role_flag (Some uid) (committed w)) = []).
  { cbn [Sql.user_role_flag fst]. rewrite filter_none; [reflexivity|].
    intros u Hu. cbn [sql_eqZ]. apply Z.eqb_neq. now apply Hnone. }
  split.
  - rewrite verifyRole_run; [| | exact Hf];
      unfold user_id, authenticated; cbn [req_user_of ru_id]; rewrite Hid.
    + now rewrite Hrows.
    + now apply id_falsy_nonzero.
  - rewrite (@protected_run D E allowed router now req h c uid w
               Hh Hfalsy Hv Hid Hnz Hf).
    now rewrite Hrows.
Qed.

Lemma verifyRole_unknown_user_witness :
  App.protected Sample.E0 (App.admin_only) Sample.ok_router 50
                (Sample.bearing Sample.ghost_token) (initial_world Sample.s0)
  = (Ok (envelope 404 "error" "User tidak ditemukan"),
     after_read (initial_world Sample.s0)).
Proof.
  refine (proj2 (@verifyRole_unknown_user unit Sample.E0 App.admin_only
                   Sample.ok_router 50 (Sample.bearing Sample.ghost_token)
                   (Bearer Sample.ghost_token)
                   (mkClaims (Some 9) (Some "ghost@shop.test") (Some "admin") 0 None)
                   9 (initial_world Sample.s0)
                   eq_refl eq_refl eq_refl eq_refl _ eq_refl _)).
  - discriminate.
  - intros u [<-|[<-|[<-|[]]]]; discriminate.
Defined.

(** What a [PUT /users/:id] that answers 200 has done. *)
Lemma put_user_200_inv id b w r w' :
  Users.put id b w = (Ok r, w') -> code r = 200 ->
  users (committed w')
  = map (fun u => if u_id u =? id then patched_user b u else u)
        (users (committed w)) /\
  tokens (committed w') = tokens (committed w) /\
  products (committed w') = products (committed w) /\
  orders (committed w') = orders (committed w) /\
  filter (fun u => u_id u =? id) (users (committed w')) <> [].
Proof.
  unfold Users.put. cbn [catch Exc_M bind Monad_M ret]. intros H Hc.
  run_query; cbn [fst snd] in H.
  { inversion H; subst. discriminate. }
  cbn [Sql.update_user fst snd] in H.
  fold (patched_user b) in H.
  destruct (map view_of _) as [|row rows] eqn:Hrows.
  { inversion H; subst. discriminate. }
  inversion H; subst; clear H. cbn [committed users tokens products orders].
  repeat (split; [reflexivity|]).
  intros Hnil. rewrite Hnil in Hrows. discriminate.
Qed.

Lemma patched_rows id b l u rest :
  filter (fun u => u_id u =? id)
         (map (fun u => if u_id u =? id then patched_user b u else u) l)
  = u :: rest ->
  exists u0, In u0 l /\ u_id u0 = id /\ u = patched_user b u0.
Proof.
  intros H.
  assert (Hin : In u (filter (fun u => u_id u =? id)
                        (map (fun u => if u_id u =? id then patched_user b u else u) l)))
    by (rewrite H; now left).
  apply filter_In in Hin. destruct Hin as [Hin Hid].
  apply in_map_iff in Hin. destruct Hin as (u0 & Hu & Hin0).
  exists u0. split; [exact Hin0|].
  destruct (Z.eqb_spec (u_id u0) id) as [Heq|Hne].
  - split; [exact Heq | now symmetry].
  - subst u. apply Z.eqb_eq in Hid. contradiction.
Qed.

Lemma role_not_included allowed role :
  (forall a, In a allowed -> Js.toLowerCase a <> Js.toLowerCase role) ->
  Js.includes allowed (Js.toLowerCase role) = false.
Proof.
  intros H. destruct (Js.includes allowed (Js.toLowerCase role)) eqn:Hinc;
    [|reflexivity].
  apply includes_In in Hinc. exfalso. apply (H _ Hinc).
  apply toLowerCase_idem.
Qed.

(** The role stage never looks at the role claim of the token. *)
Lemma verifyRole_ignores_claimed_role (D : Type) allowed a id ra rb w :
  verdict (fst (@verifyRole D allowed (mkRequest a (Some (mkReqUser id ra))) w))
  = verdict (fst (@verifyRole D allowed (mkRequest a (Some (mkReqUser id rb))) w))
  /\ snd (@verifyRole D allowed (mkRequest a (Some (mkReqUser id ra))) w)
     = snd (@verifyRole D allowed (mkRequest a (Some (mkReqUser id rb))) w).
Proof.
  unfold verifyRole. cbn [catch Exc_M bind Monad_M ret user_id req_user_of ru_id].
  destruct (id_falsy id); [split; reflexivity|]. cbn [bind Monad_M].
  destruct (Db.next_fault w) as [e|] eqn:Hf.
  - rewrite !pool_query_fault with (m := e) by exact Hf. split; reflexivity.
  - rewrite !pool_query_ok by exact Hf. cbn [fst snd].
    destruct (Sql.user_role_flag id (committed w)) as [[|[role [[|]|]] rows] s'];
      cbn [fst snd ret Monad_M]; try (split; reflexivity).
    all: destruct (negb _); split; reflexivity.
Qed.

(** C4: on a protected route, once the token has verified, the role stage
    decides from the role and the disabled flag of the user row it reads
    from the store at that moment: a set flag is answered 403 "account
    disabled", and a stored role that equals no allowed role in any letter
    case is answered 403 "role not permitted"; the role claim of the token
    has no part in the decision; and once [PUT /users/:id] has set the
    flag, a request bearing that user's token, valid as it is, is answered
    403. *)
Theorem verifyRole_reads_store (D : Type) E allowed
        (router : request -> M (response D)) now req h c uid w u rest :
  authorization req = Some h -> text_falsy h = false ->
  Jwt.verify (strip_bearer h) (JWT_SECRET E) now = Ok c ->
  c_id c = Some uid -> uid <> 0 -> Db.next_fault w = None ->
  filter (fun u => u_id u =? uid) (users (committed w)) = u :: rest ->
  (u_disabled u = Some true ->
   App.protected E allowed router now req w
   = (Ok (envelope 403 "error" "Akun Anda telah dinonaktifkan"), after_read w)) /\
  (u_disabled u <> Some true ->
   (forall a, In a allowed -> Js.toLowerCase a <> Js.toLowerCase (u_role u)) ->
   App.protected E allowed router now req w
   = (Ok (envelope 403 "error"
            ("Akses ditolak: role '" ++ u_role u ++ "' tidak memiliki izin")),
      after_read w)) /\
  (forall ra rb,
     verdict (fst (@verifyRole D allowed
                     (mkRequest (authorization req)
                                (Some (mkReqUser (Some uid) ra))) w))
     = verdict (fst (@verifyRole D allowed
                       (mkRequest (authorization req)
                                  (Some (mkReqUser (Some uid) rb))) w))) /\
  (forall b w0 r,
     Users.put uid b w0 = (Ok r, w) -> code r = 200 ->
     Users.b_disabled b = Some true ->
     App.protected E allowed router now req w
     = (Ok (envelope 403 "error" "Akun Anda telah dinonaktifkan"), after_read w)).
Proof.
  intros Hh Hfalsy Hv Hid Hnz Hf Hrows.
  assert (Hq : fst (Sql.user_role_flag (Some uid) (committed w))
               = (u_role u, u_disabled u)
                   :: map (fun u => (u_role u, u_disabled u)) rest).
  { cbn [Sql.user_role_flag fst sql_eqZ]. now rewrite Hrows. }
  assert (Hdis : u_disabled u = Some true ->
                 App.protected E allowed router now req w
                 = (Ok (envelope 403 "error" "Akun Anda telah dinonaktifkan"),
                    after_read w)).
  { intros Hd.
    rewrite (@protected_run D E allowed router now req h c uid w
               Hh Hfalsy Hv Hid Hnz Hf), Hq.
    unfold role_decision. now rewrite Hd. }
  split; [exact Hdis|]. split; [|split].
  - intros Hd Hno.
    rewrite (@protected_run D E allowed router now req h c uid w
               Hh Hfalsy Hv Hid Hnz Hf), Hq.
    unfold role_decision. rewrite (role_not_included _ _ Hno). cbn [negb].
    destruct (u_disabled u) as [[|]|]; [contradiction Hd| |]; reflexivity.
  - intros ra rb. apply verifyRole_ignores_claimed_role.
  - intros b w0 r Hput Hc Hb. apply Hdis.
    destruct (put_user_200_inv _ _ _ Hput Hc) as (Hu & _).
    rewrite Hu in Hrows. apply patched_rows in Hrows.
    destruct Hrows as (u0 & _ & _ & ->). cbn [patched_user u_disabled].
    now rewrite Hb.
Qed.

Lemma verifyRole_reads_store_witness :
  App.protected Sample.E0 App.admin_only Sample.ok_router 50
                (Sample.bearing Sample.carol_token) (initial_world Sample.s0)
  = (Ok (envelope 403 "error" "Akun Anda telah dinonaktifkan"),
     after_read (initial_world Sample.s0)) /\
  App.protected Sample.E0 App.admin_only Sample.ok_router 50
                (Sample.bearing Sample.bob_token) (initial_world Sample.s0)
  = (Ok (envelope 403 "error" "Akses ditolak: role 'cashier' tidak memiliki izin"),
     after_read (initial_world Sample.s0)).
Proof.
  split.
  - refine (proj1 (@verifyRole_reads_store unit Sample.E0 App.admin_only
                     Sample.ok_router 50 (Sample.bearing Sample.carol_token)
                     (Bearer Sample.carol_token)
                     (mkClaims (Some 3) (Some "carol@shop.test") (Some "admin") 0 None)
                     3 (initial_world Sample.s0) Sample.carol []
                     eq_refl eq_refl eq_refl eq_refl _ eq_refl eq_refl) eq_refl).
    discriminate.
  - refine (proj1 (proj2 (@verifyRole_reads_store unit Sample.E0 App.admin_only
                     Sample.ok_router 50 (Sample.bearing Sample.bob_token)
                     (Bearer Sample.bob_token) (Sample.bob_claims (Some 3600))
                     2 (initial_world Sample.s0) Sample.bob []
                     eq_refl eq_refl eq_refl eq_refl _ eq_refl eq_refl)) _ _).
    + discriminate.
    + discriminate.
    + intros a [<-|[]]. discriminate.
Defined.

(** ** Product creation *)

Lemma fold_max_spec (r : list Z) (x : Z) :
  (fold_left Z.max r x = x \/ In (fold_left Z.max r x) r) /\
  x <= fold_left Z.max r x /\
  (forall y, In y r -> y <= fold_left Z.max r x).
Proof.
  revert x. induction r as [|y r IH]; intros x; simpl.
  - split; [now left|]. split; [lia | contradiction].
  - destruct (IH (Z.max x y)) as (Hin & Hle & Hall). split; [|split].
    + destruct Hin as [Heq|Hin]; [|now right; right].
      rewrite Heq. destruct (Z.max_spec x y) as [[_ ->]|[_ ->]];
        [right; now left | now left].
    + lia.
    + intros z [<-|Hz]; [lia | now apply Hall].
Qed.

Lemma sql_MAX_spec (l : list Z) :
  match sql_MAX l with
  | None => l = []
  | Some m => In m l /\ forall y, In y l -> y <= m
  end.
Proof.
  destruct l as [|x r]; simpl; [reflexivity|].
  destruct (fold_max_spec r x) as (Hin & Hle & Hall). split.
  - destruct Hin as [->|Hin]; [now left | now right].
  - intros y [<-|Hy]; [exact Hle | now apply Hall].
Qed.

Ltac fault_side :=
  unfold Db.next_fault;
  cbn [faults Db.tick Db.log fst snd committed txn clients hist];
  rewrite ?nth_tl;
  match goal with
  | Hc : calm _ _ |- _ = None => apply Hc; lia
  | Hk : nth _ _ _ = _ |- _ => exact Hk
  end.

(** The next call of a handler: answered, or rejected with [msg]. *)
Ltac db_step msg :=
  first [ rewrite call_ok by fault_side
        | rewrite call_fault with (m := msg) by fault_side ];
  cbn [fst snd Db.tick Db.log committed txn clients hist faults
       Sql.next_product_id Sql.insert_product
       catch Exc_M bind Monad_M ret raise].

Ltac db_unfold :=
  unfold Db.pool_connect, Db.client_begin, Db.client_lock, Db.client_query,
    Db.client_commit, Db.client_rollback, Db.client_release, finally;
  cbn [catch Exc_M bind Monad_M ret raise].

(** Any call of a handler, answered or not. *)
Ltac call_any :=
  match goal with
  | |- context [Db.call ?run ?w] =>
      let e := fresh "e" in
      let Hf := fresh "Hf" in
      destruct (Db.next_fault w) as [e|] eqn:Hf;
      [ rewrite (@call_fault _ run w e Hf) | rewrite (@call_ok _ run w Hf) ];
      cbn [fst snd Db.tick Db.log committed txn clients hist faults
           Sql.next_product_id Sql.insert_product
           catch Exc_M bind Monad_M ret raise]
  end.

(** C2: a valid product-creation request that the store serves inserts
    exactly one row, answered with 201; the row's identifier is 1 on an
    empty table and otherwise the greatest identifier in the table plus
    one, whatever [id] the client sent; its availability flag is true and
    its other columns are the request's. *)
Theorem post_product_next_id stock b w :
  Products.validateProductInput b = None -> txn w = None -> calm 6 w ->
  (exists row w',
    Products.post stock b w = (Ok (mkResponse 201 None None None (Some row)), w') /\
    products (committed w') = (products (committed w) ++ [row])%list /\
    users (committed w') = users (committed w) /\
    tokens (committed w') = tokens (committed w) /\
    orders (committed w') = orders (committed w) /\
    pr_available row = Some true /\
    pr_name row = Products.b_name b /\ pr_price row = Products.b_price b /\
    pr_size row = Products.b_size b /\ pr_color row = Products.b_color b /\
    pr_category row = Products.b_category b /\
    (products (committed w) = [] -> pr_id row = 1) /\
    (products (committed w) <> [] ->
     exists p, In p (products (committed w)) /\ pr_id row = pr_id p + 1) /\
    (forall p, In p (products (committed w)) -> pr_id p < pr_id row) /\
    txn w' = None /\ clients w' = clients w) /\
  (forall i, i <> 0 ->
     Products.post stock
       (Products.mkBody (Some i) (Products.b_name b) (Products.b_price b)
          (Products.b_size b) (Products.b_color b) (Products.b_category b)
          (Products.b_available b)) w
     = Products.post stock b w).
Proof.
  intros Hv Ht Hcalm.
  assert (Hsame : forall i, i <> 0 ->
            Products.post stock
              (Products.mkBody (Some i) (Products.b_name b) (Products.b_price b)
                 (Products.b_size b) (Products.b_color b)
                 (Products.b_category b) (Products.b_available b)) w
            = Products.post stock b w).
  { intros i Hi. unfold Products.post. rewrite Hv.
    assert (Hv' : Products.validateProductInput
                    (Products.mkBody (Some i) (Products.b_name b)
                       (Products.b_price b) (Products.b_size b)
                       (Products.b_color b) (Products.b_category b)
                       (Products.b_available b)) = None).
    { revert Hv. unfold Products.validateProductInput.
      cbn [Products.b_id Products.b_name Products.b_price Products.b_size
           Products.b_color Products.b_category].
      rewrite (id_falsy_nonzero Hi).
      destruct (id_falsy (Products.b_id b)); [discriminate|].
      cbn [orb]. tauto. }
    rewrite Hv'. reflexivity. }
  split; [|exact Hsame]. clear Hsame.
  unfold Products.post. rewrite Hv. db_unfold.
  do 4 (db_step EmptyString; rewrite ?Ht).
  db_step EmptyString. db_step EmptyString.
  cbn [hd_error]. eexists. eexists. split; [reflexivity|].
  cbn [committed txn clients products users tokens orders pr_available pr_name
       pr_price pr_size pr_color pr_category pr_id Nat.pred].
  repeat (split; [reflexivity|]).
  pose proof (sql_MAX_spec (map pr_id (products (committed w)))) as Hmax.
  destruct (sql_MAX (map pr_id (products (committed w)))) as [m|];
    cbn [COALESCE].
  - destruct Hmax as [Hin Hall]. apply in_map_iff in Hin.
    destruct Hin as (p & Hp & Hin). split; [|split; [|split; [|split]]];
      try reflexivity.
    + intros Hnil. rewrite Hnil in Hin. contradiction.
    + intros _. exists p. split; [exact Hin | now rewrite Hp].
    + intros q Hq. specialize (Hall (pr_id q) (in_map pr_id _ _ Hq)). lia.
  - apply map_eq_nil in Hmax. rewrite Hmax.
    split; [reflexivity|]. split; [congruence|]. split; [contradiction|].
    split; reflexivity.
Qed.

Lemma post_product_next_id_witness :
  exists w',
    Products.post None Sample.shirt (initial_world Sample.shop)
    = (Ok (mkResponse 201 None None None
             (Some (mkProduct 10 (Some "shirt") (Some (Num (25 # 2))) (Some "M")
                              (Some "red") (Some "clothing") (Some true) None))),
       w') /\
    map pr_id (products (committed w')) = [4; 9; 10].
Proof.
  destruct (@post_product_next_id None Sample.shirt (initial_world Sample.shop))
    as ((row & w' & Hrun & Hprod & _) & _).
  - reflexivity.
  - reflexivity.
  - intros k _. simpl. now destruct k.
  - exists w'. assert (Hrow : row = mkProduct 10 (Some "shirt")
                                (Some (Num (25 # 2))) (Some "M") (Some "red")
                                (Some "clothing") (Some true) None)
      by (inversion Hrun; reflexivity).
    subst row. split; [exact Hrun|]. rewrite Hprod. reflexivity.
Defined.




(** ** Updates *)









(* ===================================================================== *)
(** * Further properties *)
(* ===================================================================== *)

(** ** Issuing and verifying tokens *)

(** X1: an access token issued by [generateAccessToken] and handed back to
    the helper [verifyToken] (default secret) decodes to the id, email and
    role it was issued for until the configured life time is over, and to
    [null] from then on. *)
Theorem access_token_round_trip E p now k d :
  JWT_SECRET E = Some k -> JWT_ACCESS_EXPIRATION E = Some d ->
  exists tok,
    Helper.generateAccessToken E p now = Ok tok /\
    forall t,
      (t < now + d ->
       Helper.verifyToken E tok None t
       = Some (mkClaims (p_id p) (p_email p) (p_role p) now (Some (now + d)))) /\
      (now + d <= t -> Helper.verifyToken E tok None t = None).
Proof.
  intros Hk Hd. unfold Helper.generateAccessToken, Helper.ACCESS_SECRET, Jwt.sign.
  rewrite Hk, Hd. cbn [p_id p_email p_role]. eexists. split; [reflexivity|].
  intros t. split; intros Ht.
  - apply helper_verify_ok. unfold Helper.effective_secret, Helper.ACCESS_SECRET.
    rewrite Hk. now apply verify_live.
  - apply helper_verify_throw with (msg := "jwt expired").
    unfold Helper.effective_secret, Helper.ACCESS_SECRET. rewrite Hk.
    now apply verify_expired with (e := now + d).
Qed.

Lemma access_token_round_trip_witness :
  exists tok,
    Helper.generateAccessToken Sample.E0
      (mkPayload (Some 2) (Some "bob@shop.test") (Some "cashier")) 100 = Ok tok /\
    Helper.verifyToken Sample.E0 tok None 3699
    = Some (mkClaims (Some 2) (Some "bob@shop.test") (Some "cashier") 100
                     (Some 3700)) /\
    Helper.verifyToken Sample.E0 tok None 3700 = None.
Proof.
  destruct (@access_token_round_trip Sample.E0
              (mkPayload (Some 2) (Some "bob@shop.test") (Some "cashier"))
              100 "s3cret" 3600 eq_refl eq_refl) as (tok & Htok & Hv).
  exists tok. split; [exact Htok|]. split.
  - apply (proj1 (Hv 3699)). lia.
  - apply (proj2 (Hv 3700)). lia.
Defined.

(** X2: a token issued by [generateAdminToken] carries no [exp] claim and
    the helper [verifyToken] decodes it at every time, however late. *)
Theorem admin_token_never_expires E p now k :
  JWT_SECRET E = Some k ->
  exists tok,
    Helper.generateAdminToken E p now = Ok tok /\
    token_exp tok = None /\
    forall t,
      Helper.verifyToken E tok None t
      = Some (mkClaims (p_id p) (p_email p) (p_role p) now None).
Proof.
  intros Hk. unfold Helper.generateAdminToken, Helper.ACCESS_SECRET, Jwt.sign.
  rewrite Hk. cbn [p_id p_email p_role]. eexists. split; [reflexivity|].
  split; [reflexivity|]. intros t. apply helper_verify_ok.
  unfold Helper.effective_secret, Helper.ACCESS_SECRET. rewrite Hk.
  now apply verify_live.
Qed.

Lemma admin_token_never_expires_witness :
  exists tok,
    Helper.generateAdminToken Sample.E0
      (mkPayload (Some 1) (Some "alice@shop.test") (Some "Admin")) 0 = Ok tok /\
    token_exp tok = None /\
    Helper.verifyToken Sample.E0 tok None 4102444800
    = Some (mkClaims (Some 1) (Some "alice@shop.test") (Some "Admin") 0 None).
Proof.
  destruct (@admin_token_never_expires Sample.E0
              (mkPayload (Some 1) (Some "alice@shop.test") (Some "Admin"))
              0 "s3cret" eq_refl) as (tok & Htok & Hexp & Hv).
  exists tok. split; [exact Htok|]. split; [exact Hexp | apply Hv].
Defined.

(** X3: a refresh token carries the id only and expires 7 days (604800 s)
    after it was issued; when the refresh secret differs from the access
    secret, the token stage refuses it as an access token with 401
    "invalid signature", and the helper [verifyToken] accepts it only when
    given the refresh secret. *)
Theorem refresh_token_is_no_access_token E p now k rk :
  JWT_SECRET E = Some k -> JWT_REFRESH_SECRET E = Some rk -> rk <> k ->
  exists tok,
    Helper.generateRefreshToken E p now = Ok tok /\
    token_exp tok = Some (now + 604800) /\
    (forall t, t < now + 604800 ->
       Helper.verifyToken E tok (Some rk) t
       = Some (mkClaims (p_id p) None None now (Some (now + 604800)))) /\
    (forall t, Helper.verifyToken E tok None t = None) /\
    (forall (D : Type) t u,
       @verifyToken E D t (mkRequest (Some (Bearer tok)) u)
       = Respond (envelope 401 "error" "Token invalid: invalid signature")).
Proof.
  intros Hk Hrk Hne.
  unfold Helper.generateRefreshToken, Helper.REFRESH_SECRET, Jwt.sign.
  rewrite Hrk. cbn [p_id p_email p_role]. eexists. split; [reflexivity|].
  split; [reflexivity|]. split; [|split].
  - intros t Ht. apply helper_verify_ok. cbn [Helper.effective_secret].
    now apply verify_live.
  - intros t. apply helper_verify_throw with (msg := "invalid signature").
    unfold Helper.effective_secret, Helper.ACCESS_SECRET. rewrite Hk.
    now apply verify_tampered.
  - intros D t u. unfold verifyToken.
    cbn [authorization text_falsy strip_bearer]. rewrite Hk.
    now rewrite verify_tampered.
Qed.

Lemma refresh_token_is_no_access_token_witness :
  exists tok,
    Helper.generateRefreshToken Sample.E0 (mkPayload (Some 2) None None) 0
    = Ok tok /\
    tok = Demo.bob_refresh /\
    @verifyToken Sample.E0 unit 50 (Sample.bearing tok)
    = Respond (envelope 401 "error" "Token invalid: invalid signature").
Proof.
  destruct (@refresh_token_is_no_access_token Sample.E0
              (mkPayload (Some 2) None None) 0 "s3cret" "r3fresh"
              eq_refl eq_refl) as (tok & Htok & _ & _ & _ & Hstage).
  - discriminate.
  - exists tok. split; [exact Htok|]. split.
    + inversion Htok. reflexivity.
    + apply Hstage.
Defined.

(** ** Login, beyond the token it issues *)

(** The next [pool.query] of a handler: answered, or rejected with [msg]. *)
Ltac query_step msg :=
  first [ rewrite pool_query_ok by fault_side
        | rewrite pool_query_fault with (m := msg) by fault_side ];
  cbn [fst snd Db.tick Db.log committed txn clients hist faults
       catch Exc_M bind Monad_M ret raise].

(** X4: when the store answers, the email has a row, the password matches
    the hash of the first such row and the secrets (and, for a role other
    than admin, the life time) are configured, login answers 200 for that
    row.  Nothing here depends on the disabled flag of the row: a disabled
    account still logs in. *)
Theorem login_succeeds E compare now body w user rest p k rk :
  calm 3 w ->
  fst (Sql.users_by_email (Auth.lb_email body) (committed w)) = user :: rest ->
  Auth.lb_password body = Some p -> compare p (u_password user) = true ->
  JWT_SECRET E = Some k -> JWT_REFRESH_SECRET E = Some rk ->
  (Js.toLowerCase (u_role user) <> "admin" ->
   exists d, JWT_ACCESS_EXPIRATION E = Some d) ->
  exists r w' d,
    Auth.login E compare now body w = (Ok r, w') /\ code r = 200 /\
    r_data r = Some d /\ Auth.ld_id d = u_id user /\
    Auth.ld_role d = u_role user.
Proof.
  intros Hcalm Hrows Hp Hcmp Hk Hrk Hd. unfold Auth.login.
  cbn [catch Exc_M bind Monad_M ret]. query_step EmptyString.
  rewrite Hrows. unfold Auth.bcrypt_compare. rewrite Hp.
  cbn [ret Monad_M]. rewrite Hcmp. cbn [negb].
  unfold liftO, Helper.generateAccessToken, Helper.generateRefreshToken,
    Helper.ACCESS_SECRET, Helper.REFRESH_SECRET, Jwt.sign.
  rewrite Hk, Hrk. cbn [p_id p_email p_role].
  destruct (String.eqb_spec (Js.toLowerCase (u_role user)) "admin") as [Ha|Ha].
  - do 2 query_step EmptyString. do 3 eexists.
    split; [reflexivity|]. repeat split.
  - destruct (Hd Ha) as (d & ->). do 2 query_step EmptyString. do 3 eexists.
    split; [reflexivity|]. repeat split.
Qed.

Lemma login_succeeds_witness :
  u_disabled Sample.carol = Some true /\
  exists r w' d,
    Auth.login Sample.E0 Sample.compare0 100
               (Auth.mkLoginBody (Some "carol@shop.test") (Some "c"))
               (initial_world Sample.s0) = (Ok r, w') /\
    code r = 200 /\ r_data r = Some d /\ Auth.ld_id d = 3.
Proof.
  split; [reflexivity|].
  destruct (@login_succeeds Sample.E0 Sample.compare0 100
              (Auth.mkLoginBody (Some "carol@shop.test") (Some "c"))
              (initial_world Sample.s0) Sample.carol [] "c" "s3cret" "r3fresh")
    as (r & w' & d & Hrun & Hc & Hd & Hid & _).
  - intros k _. simpl. now destruct k.
  - reflexivity.
  - reflexivity.
  - reflexivity.
  - reflexivity.
  - reflexivity.
  - intros _. exists 3600. reflexivity.
  - exists r, w', d. repeat (split; [assumption|]). exact Hid.
Defined.

(** X5: when the store answers the lookup and the DELETE of a login but
    rejects the INSERT, login answers 500 with the store's message and the
    user is left with no token pair at all, the earlier one included. *)
Theorem login_insert_failure_drops_pair E compare now body w user rest p k rk msg :
  calm 2 w -> nth 2 (faults w) None = Some msg ->
  fst (Sql.users_by_email (Auth.lb_email body) (committed w)) = user :: rest ->
  Auth.lb_password body = Some p -> compare p (u_password user) = true ->
  JWT_SECRET E = Some k -> JWT_REFRESH_SECRET E = Some rk ->
  (Js.toLowerCase (u_role user) <> "admin" ->
   exists d, JWT_ACCESS_EXPIRATION E = Some d) ->
  exists w',
    Auth.login E compare now body w
    = (Ok (envelope 500 "error" ("Internal server error: " ++ msg)), w') /\
    rows_for (u_id user) (committed w') = [] /\
    users (committed w') = users (committed w).
Proof.
  intros Hcalm Hfault Hrows Hp Hcmp Hk Hrk Hd. unfold Auth.login.
  cbn [catch Exc_M bind Monad_M ret]. query_step msg.
  rewrite Hrows. unfold Auth.bcrypt_compare. rewrite Hp.
  cbn [ret Monad_M]. rewrite Hcmp. cbn [negb].
  unfold liftO, Helper.generateAccessToken, Helper.generateRefreshToken,
    Helper.ACCESS_SECRET, Helper.REFRESH_SECRET, Jwt.sign.
  rewrite Hk, Hrk. cbn [p_id p_email p_role].
  destruct (String.eqb_spec (Js.toLowerCase (u_role user)) "admin") as [Ha|Ha].
  - do 2 query_step msg. eexists. split; [reflexivity|].
    cbn [committed]. split; [apply rows_for_delete | reflexivity].
  - destruct (Hd Ha) as (d & ->). do 2 query_step msg.
    eexists. split; [reflexivity|].
    cbn [committed]. split; [apply rows_for_delete | reflexivity].
Qed.

Lemma login_insert_failure_drops_pair_witness :
  List.length (rows_for 2 Demo.two_pairs) = 1%nat /\
  exists w',
    Auth.login Sample.E0 Sample.compare0 100 Sample.bob_login
               (mkWorld Demo.two_pairs None 0 [None; None; Some "disk full"] [])
    = (Ok (envelope 500 "error" "Internal server error: disk full"), w') /\
    rows_for 2 (committed w') = [].
Proof.
  split; [reflexivity|].
  destruct (@login_insert_failure_drops_pair Sample.E0 Sample.compare0 100
              Sample.bob_login
              (mkWorld Demo.two_pairs None 0 [None; None; Some "disk full"] [])
              Sample.bob [] "b" "s3cret" "r3fresh" "disk full")
    as (w' & Hrun & Hrows & _).
  - intros k Hk. do 2 (destruct k as [|k]; [reflexivity|]). lia.
  - reflexivity.
  - reflexivity.
  - reflexivity.
  - reflexivity.
  - reflexivity.
  - reflexivity.
  - intros _. exists 3600. reflexivity.
  - exists w'. split; [exact Hrun | exact Hrows].
Defined.

(** X6: when no life time is configured, the login of a user whose role
    is not admin fails while the token is signed, before any token row is
    touched: the answer is 500 and the store is as it was. *)
Theorem login_without_lifetime E compare now body w user rest p k :
  calm 1 w ->
  fst (Sql.users_by_email (Auth.lb_email body) (committed w)) = user :: rest ->
  Auth.lb_password body = Some p -> compare p (u_password user) = true ->
  JWT_SECRET E = Some k -> JWT_ACCESS_EXPIRATION E = None ->
  Js.toLowerCase (u_role user) <> "admin" ->
  exists msg w',
    Auth.login E compare now body w
    = (Ok (envelope 500 "error" ("Internal server error: " ++ msg)), w') /\
    committed w' = committed w.
Proof.
  intros Hcalm Hrows Hp Hcmp Hk Hd Ha. unfold Auth.login.
  cbn [catch Exc_M bind Monad_M ret]. query_step EmptyString.
  rewrite Hrows. unfold Auth.bcrypt_compare. rewrite Hp.
  cbn [ret Monad_M]. rewrite Hcmp. cbn [negb].
  unfold liftO, Helper.generateAccessToken, Helper.ACCESS_SECRET, Jwt.sign.
  rewrite Hk, Hd.
  destruct (String.eqb_spec (Js.toLowerCase (u_role user)) "admin");
    [contradiction|].
  do 2 eexists. split; reflexivity.
Qed.

Lemma login_without_lifetime_witness :
  exists msg w',
    Auth.login (mkEnv (Some "s3cret") (Some "r3fresh") None) Sample.compare0 100
               Sample.bob_login (initial_world Demo.two_pairs)
    = (Ok (envelope 500 "error" ("Internal server error: " ++ msg)), w') /\
    committed w' = Demo.two_pairs.
Proof.
  refine (@login_without_lifetime (mkEnv (Some "s3cret") (Some "r3fresh") None)
            Sample.compare0 100 Sample.bob_login (initial_world Demo.two_pairs)
            Sample.bob [] "b" "s3cret" _ eq_refl eq_refl eq_refl eq_refl eq_refl _).
  - intros k _. simpl. now destruct k.
  - discriminate.
Defined.

(** ** Logout *)

Lemma filter_all {A : Type} (p : A -> bool) (l : list A) :
  (forall x, In x l -> p x = true) -> filter p l = l.
Proof.
  induction l as [|x l IH]; intros H; simpl; [reflexivity|].
  rewrite (H x (or_introl eq_refl)). f_equal. apply IH.
  intros y Hy. apply H. now right.
Qed.

Lemma filter_filter_disjoint {A : Type} (p q : A -> bool) (l : list A) :
  (forall x, p x = true -> q x = true) ->
  filter p (filter q l) = filter p l.
Proof.
  intros H. induction l as [|x l IH]; simpl; [reflexivity|].
  destruct (q x) eqn:Hq; simpl.
  - now rewrite IH.
  - destruct (p x) eqn:Hp; [|exact IH].
    rewrite (H x Hp) in Hq. discriminate.
Qed.

(** X7: when the store answers, logout answers 200 and deletes the token
    rows of the identity it is given and no others; given no identity
    ([req.user] is not set on the auth routes) it deletes nothing. *)
Theorem logout_removes_only_own_rows id w :
  calm 1 w ->
  exists w',
    Auth.logout id w = (Ok (envelope 200 "success" "Berhasil logout"), w') /\
    users (committed w') = users (committed w) /\
    products (committed w') = products (committed w) /\
    orders (committed w') = orders (committed w) /\
    (id = None -> tokens (committed w') = tokens (committed w)) /\
    (forall uid, id = Some uid ->
       rows_for uid (committed w') = [] /\
       forall other, other <> uid ->
         rows_for other (committed w') = rows_for other (committed w)).
Proof.
  intros Hcalm. unfold Auth.logout. cbn [catch Exc_M bind Monad_M ret].
  query_step EmptyString. eexists. split; [reflexivity|].
  cbn [Sql.delete_tokens snd users products orders tokens].
  repeat (split; [reflexivity|]). split.
  - intros ->. apply filter_all. intros r _.
    unfold sql_eq_optZ. now destruct (tk_user_id r).
  - intros uid ->. split; [apply rows_for_delete|].
    intros other Hne. unfold rows_for. cbn [Sql.delete_tokens snd tokens].
    apply filter_filter_disjoint. intros r Hr.
    unfold sql_eq_optZ, sql_eqZ in *. destruct (tk_user_id r) as [c|];
      [|discriminate]. apply Z.eqb_eq in Hr. subst c.
    apply negb_true_iff, Z.eqb_neq. exact Hne.
Qed.

Lemma logout_removes_only_own_rows_witness :
  (exists w',
     Auth.logout None (initial_world Demo.two_pairs)
     = (Ok (envelope 200 "success" "Berhasil logout"), w') /\
     tokens (committed w') = tokens Demo.two_pairs) /\
  (exists w',
     Auth.logout (Some 2) (initial_world Demo.two_pairs)
     = (Ok (envelope 200 "success" "Berhasil logout"), w') /\
     rows_for 2 (committed w') = [] /\
     rows_for 1 (committed w') = rows_for 1 Demo.two_pairs).
Proof.
  assert (Hcalm : calm 1 (initial_world Demo.two_pairs))
    by (intros k _; simpl; now destruct k).
  split.
  - destruct (@logout_removes_only_own_rows None _ Hcalm)
      as (w' & Hrun & _ & _ & _ & Hnone & _).
    exists w'. split; [exact Hrun | now apply Hnone].
  - destruct (@logout_removes_only_own_rows (Some 2) _ Hcalm)
      as (w' & Hrun & _ & _ & _ & _ & Hsome).
    destruct (Hsome 2 eq_refl) as [Hgone Hkept].
    exists w'. split; [exact Hrun|]. split; [exact Hgone|].
    apply (Hkept 1). discriminate.
Defined.

(** ** Registration *)

Lemma truthy_nonempty (v : string) : v <> EmptyString -> Js.truthy_str v = true.
Proof.
  intros H. unfold Js.truthy_str.
  destruct (String.eqb_spec v EmptyString); [contradiction | reflexivity].
Qed.

Lemma filter_nil_forall {A : Type} (p : A -> bool) (l : list A) :
  filter p l = [] -> forall x, In x l -> p x = false.
Proof.
  induction l as [|y l IH]; simpl; [contradiction|].
  destruct (p y) eqn:Hp; [discriminate|].
  intros H x [<-|Hx]; [exact Hp | now apply IH].
Qed.

Lemma filter_some {A : Type} (p : A -> bool) (l : list A) (x : A) :
  In x l -> p x = true -> exists y r, filter p l = y :: r.
Proof.
  intros Hin Hp. destruct (filter p l) as [|y r] eqn:Hf; [|now exists y, r].
  rewrite (filter_nil_forall p l Hf x Hin) in Hp. discriminate.
Qed.

(** X8: a registration with one of fullname, username, email, password or
    role missing or empty is answered 400 without a single call to the
    store. *)
Theorem register_requires_fields schema hash b w :
  Products.falsy_str (Registration.b_fullname b) = true \/
  Products.falsy_str (Registration.b_username b) = true \/
  Products.falsy_str (Registration.b_email b) = true \/
  Products.falsy_str (Registration.b_password b) = true \/
  Products.falsy_str (Registration.b_role b) = true ->
  Registration.register schema hash b w
  = (Ok (envelope 400 "error" "Semua field wajib diisi"), w).
Proof.
  unfold Registration.register, Products.falsy_str.
  destruct (Registration.b_fullname b) as [f|],
           (Registration.b_username b) as [u|],
           (Registration.b_email b) as [e|],
           (Registration.b_password b) as [p|],
           (Registration.b_role b) as [r|]; try reflexivity.
  destruct (Js.truthy_str f), (Js.truthy_str u), (Js.truthy_str e),
           (Js.truthy_str p), (Js.truthy_str r); cbn [negb orb];
    try reflexivity.
  intros [H|[H|[H|[H|H]]]]; discriminate H.
Qed.

Lemma register_requires_fields_witness :
  Registration.register Demo.schema0 Demo.hash0 Demo.no_role
                        (initial_world Sample.s0)
  = (Ok (envelope 400 "error" "Semua field wajib diisi"),
     initial_world Sample.s0).
Proof.
  apply register_requires_fields. do 4 right. reflexivity.
Defined.

(** X9: when the store answers and some user already has the email or the
    username, registration is answered 400 "failed" and writes nothing. *)
Theorem register_conflict schema hash fullname username email password role w u :
  fullname <> EmptyString -> username <> EmptyString -> email <> EmptyString ->
  password <> EmptyString -> role <> EmptyString ->
  calm 1 w ->
  In u (users (committed w)) -> u_email u = email \/ u_username u = username ->
  exists w',
    Registration.register schema hash
      (Registration.mkBody (Some fullname) (Some username) (Some email)
                           (Some password) (Some role)) w
    = (Ok (envelope 400 "failed" "Email atau username sudah dipakai"), w') /\
    committed w' = committed w.
Proof.
  intros Hf Hu He Hp Hr Hcalm Hin Hdup. unfold Registration.register.
  cbn [Registration.b_fullname Registration.b_username Registration.b_email
       Registration.b_password Registration.b_role].
  rewrite !truthy_nonempty by assumption. cbn [negb orb].
  cbn [catch Exc_M bind Monad_M ret]. query_step EmptyString.
  cbn [Registration.users_by_email_or_username fst snd].
  destruct (@filter_some _ (fun u0 => sql_eqS (u_email u0) (Some email)
                                      || sql_eqS (u_username u0) (Some username))
                         (users (committed w)) u Hin) as (y & r & ->).
  - cbn [sql_eqS]. apply orb_true_iff.
    destruct Hdup as [<-|<-]; [left | right]; apply String.eqb_refl.
  - eexists. split; reflexivity.
Qed.

Lemma register_conflict_witness :
  exists w',
    Registration.register Demo.schema0 Demo.hash0
      (Registration.mkBody (Some "Robert") (Some "rob") (Some "bob@shop.test")
                           (Some "x") (Some "admin"))
      (initial_world Sample.s0)
    = (Ok (envelope 400 "failed" "Email atau username sudah dipakai"), w') /\
    committed w' = Sample.s0.
Proof.
  refine (@register_conflict Demo.schema0 Demo.hash0 "Robert" "rob"
            "bob@shop.test" "x" "admin" (initial_world Sample.s0) Sample.bob
            _ _ _ _ _ _ _ _); try discriminate.
  - intros k _. simpl. now destruct k.
  - right. left. reflexivity.
  - left. reflexivity.
Defined.

Lemma no_conflict_filter email username (l : list user) :
  (forall u, In u l -> u_email u <> email /\ u_username u <> username) ->
  filter (fun u => sql_eqS (u_email u) (Some email)
                   || sql_eqS (u_username u) (Some username)) l = [].
Proof.
  intros H. apply filter_none. intros u Hu. destruct (H u Hu) as [He Hn].
  cbn [sql_eqS]. apply orb_false_iff.
  split; apply String.eqb_neq; assumption.
Qed.

(** The script of a registration that goes through. *)
Ltac register_script Hcalm Hfree :=
  unfold Registration.register;
  cbn [Registration.b_fullname Registration.b_username Registration.b_email
       Registration.b_password Registration.b_role];
  rewrite !truthy_nonempty by assumption; cbn [negb orb];
  cbn [catch Exc_M bind Monad_M ret]; query_step EmptyString;
  cbn [Registration.users_by_email_or_username fst snd];
  rewrite no_conflict_filter by exact Hfree;
  query_step EmptyString;
  cbn [Registration.insert_user fst snd hd_error].

(** X10: when the store answers and no user has the email or the username,
    registration is answered 201 with the new row's id, fullname, username,
    email and role, and appends exactly one user row: the five fields as
    sent, except that the password column holds [hash(password, 12)];
    tokens, products and orders are untouched. *)
Theorem register_creates_account schema hash fullname username email password
        role w :
  fullname <> EmptyString -> username <> EmptyString -> email <> EmptyString ->
  password <> EmptyString -> role <> EmptyString ->
  calm 2 w ->
  (forall u, In u (users (committed w)) ->
             u_email u <> email /\ u_username u <> username) ->
  exists w',
    Registration.register schema hash
      (Registration.mkBody (Some fullname) (Some username) (Some email)
                           (Some password) (Some role)) w
    = (Ok (mkResponse 201 (Some "success") (Some "Akun berhasil dibuat") None
             (Some (mkRegistered (next_user_id schema (committed w)) fullname
                                 username email role))), w') /\
    users (committed w')
    = (users (committed w)
       ++ [registered_user schema hash (committed w) fullname username email
                           password role])%list /\
    tokens (committed w') = tokens (committed w) /\
    products (committed w') = products (committed w) /\
    orders (committed w') = orders (committed w).
Proof.
  intros Hf Hu He Hp Hr Hcalm Hfree. register_script Hcalm Hfree.
  eexists. split; [reflexivity|]. repeat split.
Qed.

Lemma register_creates_account_witness :
  exists w',
    Registration.register Demo.schema0 Demo.hash0 Demo.dave
                          (initial_world Sample.s0)
    = (Ok (mkResponse 201 (Some "success") (Some "Akun berhasil dibuat") None
             (Some (mkRegistered 4 "Dave" "dave" "dave@shop.test" "cashier"))),
       w') /\
    map u_password (users (committed w'))
    = ["hash-a"; "hash-b"; "hash-c"; "hash-d"].
Proof.
  destruct (@register_creates_account Demo.schema0 Demo.hash0 "Dave" "dave"
              "dave@shop.test" "d" "cashier" (initial_world Sample.s0))
    as (w' & Hrun & Husers & _); try discriminate.
  - intros k _. simpl. now destruct k.
  - intros u [<-|[<-|[<-|[]]]]; split; discriminate.
  - exists w'. split; [exact Hrun|]. rewrite Husers. reflexivity.
Defined.

(** X11: an account just registered can log in: when bcrypt accepts the
    password against its own hash, the secrets and the life time are
    configured and the store answers, a login with the registered email
    and password right after the registration is answered 200 for the new
    row. *)
Theorem register_then_login E schema hash compare fullname username email
        password role now w k rk d :
  fullname <> EmptyString -> username <> EmptyString -> email <> EmptyString ->
  password <> EmptyString -> role <> EmptyString ->
  calm 5 w ->
  (forall u, In u (users (committed w)) ->
             u_email u <> email /\ u_username u <> username) ->
  compare password (hash password 12%nat) = true ->
  JWT_SECRET E = Some k -> JWT_REFRESH_SECRET E = Some rk ->
  JWT_ACCESS_EXPIRATION E = Some d ->
  exists r1 w1 r2 w2 data,
    Registration.register schema hash
      (Registration.mkBody (Some fullname) (Some username) (Some email)
                           (Some password) (Some role)) w = (Ok r1, w1) /\
    code r1 = 201 /\
    Auth.login E compare now (Auth.mkLoginBody (Some email) (Some password)) w1
    = (Ok r2, w2) /\
    code r2 = 200 /\ r_data r2 = Some data /\
    Auth.ld_id data = next_user_id schema (committed w) /\
    Auth.ld_email data = email /\ Auth.ld_role data = role.
Proof.
  intros Hf Hu He Hp Hr Hcalm Hfree Hcmp Hk Hrk Hd.
  register_script Hcalm Hfree.
  match goal with
  | |- context [(Ok ?X, ?W) = _] => exists X, W
  end.
  unfold Auth.login. cbn [catch Exc_M bind Monad_M ret].
  query_step EmptyString.
  cbn [Sql.users_by_email fst snd users Auth.lb_email Auth.lb_password].
  rewrite filter_app.
  rewrite (@filter_none _ (fun u => sql_eqS (u_email u) (Some email))
                        (users (committed w)))
    by (intros u Hin; cbn [sql_eqS]; apply String.eqb_neq;
        now destruct (Hfree u Hin)).
  cbn [filter app u_email sql_eqS]. rewrite String.eqb_refl.
  unfold Auth.bcrypt_compare. cbn [ret Monad_M u_password]. rewrite Hcmp.
  cbn [negb].
  unfold liftO, Helper.generateAccessToken, Helper.generateRefreshToken,
    Helper.ACCESS_SECRET, Helper.REFRESH_SECRET, Jwt.sign.
  rewrite Hk, Hrk, Hd. cbn [p_id p_email p_role u_role u_id u_email].
  destruct (Js.toLowerCase role =? "admin")%string;
    do 2 query_step EmptyString; do 3 eexists;
    (split; [reflexivity|]); (split; [reflexivity|]);
    (split; [reflexivity|]); repeat split.
Qed.

Lemma register_then_login_witness :
  exists r1 w1 r2 w2 data,
    Registration.register Demo.schema0 Demo.hash0 Demo.dave
                          (initial_world Sample.s0) = (Ok r1, w1) /\
    code r1 = 201 /\
    Auth.login Sample.E0 Sample.compare0 100 Demo.dave_login w1 = (Ok r2, w2) /\
    code r2 = 200 /\ r_data r2 = Some data /\ Auth.ld_id data = 4.
Proof.
  destruct (@register_then_login Sample.E0 Demo.schema0 Demo.hash0
              Sample.compare0 "Dave" "dave" "dave@shop.test" "d" "cashier" 100
              (initial_world Sample.s0) "s3cret" "r3fresh" 3600)
    as (r1 & w1 & r2 & w2 & data & H1 & Hc1 & H2 & Hc2 & Hd & Hid & _);
    try discriminate; try reflexivity.
  - intros k _. simpl. now destruct k.
  - intros u [<-|[<-|[<-|[]]]]; split; discriminate.
  - exists r1, w1, r2, w2, data. repeat (split; [assumption|]). exact Hid.
Defined.

Lemma NoDup_snoc {A : Type} (l : list A) (x : A) :
  NoDup l -> ~ In x l -> NoDup (l ++ [x]).
Proof.
  intros Hl Hx. induction Hl as [|y l Hy Hl IH]; simpl.
  - constructor; [intros [] | constructor].
  - constructor.
    + rewrite in_app_iff. intros [H|[H|[]]]; [contradiction|].
      subst. apply Hx. now left.
    + apply IH. intros H. apply Hx. now right.
Qed.

(** X12: requests served one after the other never leave two users with
    the same email or the same username: whatever the body and whichever
    store calls fail, a registration keeps the emails pairwise distinct
    and the usernames pairwise distinct if they were. *)
Theorem register_keeps_users_unique schema hash b w :
  unique_users (committed w) ->
  unique_users (committed (snd (Registration.register schema hash b w))).
Proof.
  intros Huniq. unfold Registration.register.
  destruct (Registration.b_fullname b) as [f|],
           (Registration.b_username b) as [u|],
           (Registration.b_email b) as [e|],
           (Registration.b_password b) as [p|],
           (Registration.b_role b) as [r|]; try exact Huniq.
  destruct (_ || _); [exact Huniq|].
  cbn [catch Exc_M bind Monad_M ret].
  run_query; cbn [fst snd]; [exact Huniq|].
  cbn [Registration.users_by_email_or_username fst snd].
  destruct (filter _ (users (committed w))) as [|x rows] eqn:Hrows;
    cbn [snd committed]; [|exact Huniq].
  run_query; cbn [fst snd committed]; [exact Huniq|].
  cbn [Registration.insert_user snd]. destruct Huniq as [He Hu].
  pose proof (filter_nil_forall _ _ Hrows) as Hfree.
  unfold unique_users. cbn [users]. rewrite !map_app. cbn [map u_email u_username].
  split; apply NoDup_snoc; try assumption.
  - intros Hin. apply in_map_iff in Hin. destruct Hin as (y & Hy & Hin).
    specialize (Hfree y Hin). cbn [sql_eqS] in Hfree.
    apply orb_false_iff in Hfree. destruct Hfree as [Hfree _].
    apply String.eqb_neq in Hfree. contradiction.
  - intros Hin. apply in_map_iff in Hin. destruct Hin as (y & Hy & Hin).
    specialize (Hfree y Hin). cbn [sql_eqS] in Hfree.
    apply orb_false_iff in Hfree. destruct Hfree as [_ Hfree].
    apply String.eqb_neq in Hfree. contradiction.
Qed.

Lemma register_keeps_users_unique_witness :
  unique_users
    (committed
       (snd (Registration.register Demo.schema0 Demo.hash0 Demo.dave_again
               (snd (Registration.register Demo.schema0 Demo.hash0 Demo.dave
                       (initial_world Sample.s0)))))).
Proof.
  do 2 apply register_keeps_users_unique.
  split; simpl; repeat constructor; simpl; intuition discriminate.
Defined.

(** ** The two stages together *)

(** X13: on a protected route, a verified token whose user row is not
    disabled and whose stored role, lower-cased, is one of the allowed
    roles reaches the router, with [req.user] set from the token claims. *)
Theorem protected_admits (D : Type) E allowed
        (router : request -> M (response D)) now req h c uid w u rest :
  authorization req = Some h -> text_falsy h = false ->
  Jwt.verify (strip_bearer h) (JWT_SECRET E) now = Ok c ->
  c_id c = Some uid -> uid <> 0 -> Db.next_fault w = None ->
  filter (fun u => u_id u =? uid) (users (committed w)) = u :: rest ->
  u_disabled u <> Some true ->
  In (Js.toLowerCase (u_role u)) allowed ->
  App.protected E allowed router now req w
  = router (mkRequest (authorization req)
                      (Some (mkReqUser (c_id c) (c_role c))))
           (after_read w).
Proof.
  intros Hh Hfalsy Hv Hid Hnz Hf Hrows Hdis Hin.
  rewrite (@protected_run D E allowed router now req h c uid w
             Hh Hfalsy Hv Hid Hnz Hf).
  cbn [Sql.user_role_flag fst sql_eqZ]. rewrite Hrows.
  cbn [map role_decision]. apply includes_In in Hin. rewrite Hin. cbn [negb].
  destruct (u_disabled u) as [[|]|]; [contradiction| |]; reflexivity.
Qed.

Lemma protected_admits_witness :
  App.protected Sample.E0 App.admin_only Sample.ok_router 50
                (Sample.bearing Demo.alice_token) (initial_world Sample.s0)
  = (Ok (envelope 200 "success" "ok"), after_read (initial_world Sample.s0)).
Proof.
  rewrite (@protected_admits unit Sample.E0 App.admin_only Sample.ok_router 50
             (Sample.bearing Demo.alice_token) (Bearer Demo.alice_token)
             (mkClaims (Some 1) (Some "alice@shop.test") (Some "Admin") 0 None)
             1 (initial_world Sample.s0) Sample.alice []
             eq_refl eq_refl eq_refl eq_refl);
    [reflexivity | discriminate | reflexivity | reflexivity | discriminate
    | now left].
Defined.

(** X14: the role stage answers 401 "User tidak valid", without reading
    the store, when the request carries no identity (none set, or 0); and
    when its read of the store fails it answers 500 with a fixed message
    that does not repeat the store's error. *)
Theorem verifyRole_errors (D : Type) allowed req w :
  (id_falsy (user_id req) = true ->
   @verifyRole D allowed req w
   = (Ok (Respond (envelope 401 "error" "User tidak valid")), w)) /\
  (id_falsy (user_id req) = false ->
   forall msg, Db.next_fault w = Some msg ->
     @verifyRole D allowed req w
     = (Ok (Respond (envelope 500 "error" "Internal server error")),
        after_read w)).
Proof.
  unfold verifyRole. cbn [catch Exc_M bind Monad_M ret]. split.
  - intros ->. reflexivity.
  - intros -> msg Hf. cbn [bind Monad_M].
    rewrite pool_query_fault with (m := msg) by exact Hf. reflexivity.
Qed.

Lemma verifyRole_errors_witness :
  @verifyRole unit App.admin_only (mkRequest None None)
              (initial_world Sample.s0)
  = (Ok (Respond (envelope 401 "error" "User tidak valid")),
     initial_world Sample.s0) /\
  @verifyRole unit App.admin_only
              (mkRequest None (Some (mkReqUser (Some 1) (Some "admin"))))
              (mkWorld Sample.s0 None 0 [Some "connection refused"] [])
  = (Ok (Respond (envelope 500 "error" "Internal server error")),
     after_read (mkWorld Sample.s0 None 0 [Some "connection refused"] [])).
Proof.
  split.
  - apply (proj1 (verifyRole_errors unit App.admin_only (mkRequest None None)
                    (initial_world Sample.s0))). reflexivity.
  - apply (proj2 (verifyRole_errors unit App.admin_only
                    (mkRequest None (Some (mkReqUser (Some 1) (Some "admin"))))
                    (mkWorld Sample.s0 None 0 [Some "connection refused"] []))
             eq_refl "connection refused"). reflexivity.
Defined.

Lemma role_of_patched b u role :
  Users.b_role b = Some role -> u_role (patched_user b u) = role.
Proof. intros H. cbn [patched_user u_role]. now rewrite H. Qed.

(** X16: a role change takes effect at the next request: once
    [PUT /users/:id] has written a role that no allowed role equals in any
    letter case, a request bearing that user's verified token is answered
    403, whatever role the token itself claims. *)
Theorem role_change_takes_effect (D : Type) E allowed
        (router : request -> M (response D)) now req h c uid w b w0 r role :
  authorization req = Some h -> text_falsy h = false ->
  Jwt.verify (strip_bearer h) (JWT_SECRET E) now = Ok c ->
  c_id c = Some uid -> uid <> 0 -> Db.next_fault w = None ->
  Users.put uid b w0 = (Ok r, w) -> code r = 200 ->
  Users.b_role b = Some role ->
  (forall a, In a allowed -> Js.toLowerCase a <> Js.toLowerCase role) ->
  exists msg,
    App.protected E allowed router now req w
    = (Ok (envelope 403 "error" msg), after_read w).
Proof.
  intros Hh Hfalsy Hv Hid Hnz Hf Hput Hc Hb Hno.
  destruct (put_user_200_inv _ _ _ Hput Hc) as (Hu & _ & _ & _ & Hne).
  destruct (filter (fun u => u_id u =? uid) (users (committed w)))
    as [|u rest] eqn:Hrows; [contradiction|].
  pose proof Hrows as Hrows'. rewrite Hu in Hrows'.
  apply patched_rows in Hrows'. destruct Hrows' as (u0 & _ & _ & Hpatched).
  assert (Hrole : u_role u = role) by (subst u; now apply role_of_patched).
  rewrite (@protected_run D E allowed router now req h c uid w
             Hh Hfalsy Hv Hid Hnz Hf).
  cbn [Sql.user_role_flag fst sql_eqZ]. rewrite Hrows.
  cbn [map role_decision]. rewrite Hrole.
  rewrite (role_not_included _ _ Hno). cbn [negb].
  destruct (u_disabled u) as [[|]|]; eexists; reflexivity.
Qed.

Lemma role_change_takes_effect_witness :
  exists w msg,
    Users.put 1 Demo.demote (initial_world Sample.s0)
    = (Ok (mkResponse 200 (Some "success") (Some "User berhasil diperbarui")
             None
             (Some (mkUserView 1 "Alice" "alice" "alice@shop.test" "cashier"
                               None))), w) /\
    App.protected Sample.E0 App.admin_only Sample.ok_router 50
                  (Sample.bearing Demo.alice_token) w
    = (Ok (envelope 403 "error" msg), after_read w).
Proof.
  destruct (Users.put 1 Demo.demote (initial_world Sample.s0))
    as [o w] eqn:Hput.
  assert (Ho : o = Ok (mkResponse 200 (Some "success")
                         (Some "User berhasil diperbarui") None
                         (Some (mkUserView 1 "Alice" "alice" "alice@shop.test"
                                           "cashier" None))))
    by (inversion Hput; reflexivity).
  assert (Hf : Db.next_fault w = None) by (inversion Hput; reflexivity).
  subst o.
  destruct (@role_change_takes_effect unit Sample.E0 App.admin_only
              Sample.ok_router 50 (Sample.bearing Demo.alice_token)
              (Bearer Demo.alice_token)
              (mkClaims (Some 1) (Some "alice@shop.test") (Some "Admin") 0 None)
              1 w Demo.demote (initial_world Sample.s0) _ "cashier"
              eq_refl eq_refl eq_refl eq_refl ltac:(discriminate) Hf Hput
              eq_refl eq_refl) as (msg & Hrun).
  - intros a [<-|[]]. discriminate.
  - exists w, msg. split; [reflexivity | exact Hrun].
Defined.

(** What a [DELETE /users/:id] that answers 200 has done. *)
Lemma delete_user_200_inv id w r w' :
  UserRoutes.delete id w = (Ok r, w') -> code r = 200 ->
  users (committed w')
  = filter (fun u => negb (u_id u =? id)) (users (committed w)) /\
  tokens (committed w') = tokens (committed w) /\
  products (committed w') = products (committed w) /\
  orders (committed w') = orders (committed w) /\
  Db.next_fault w = None.
Proof.
  unfold UserRoutes.delete. cbn [catch Exc_M bind Monad_M ret]. intros H Hc.
  run_query; cbn [fst snd] in H.
  { inversion H; subst. discriminate. }
  cbn [UserRoutes.delete_user fst snd] in H.
  destruct (map _ _) as [|row rows].
  { inversion H; subst. discriminate. }
  inversion H; subst; clear H. repeat split.
Qed.

(** X17: once [DELETE /users/:id] has answered 200, the deleted user's
    token rows are still in the store, and a request bearing the deleted
    user's verified token is answered 404 by the role stage. *)
Theorem deleted_user_is_locked_out (D : Type) E allowed
        (router : request -> M (response D)) now req h c uid w w0 r :
  authorization req = Some h -> text_falsy h = false ->
  Jwt.verify (strip_bearer h) (JWT_SECRET E) now = Ok c ->
  c_id c = Some uid -> uid <> 0 -> Db.next_fault w = None ->
  UserRoutes.delete uid w0 = (Ok r, w) -> code r = 200 ->
  rows_for uid (committed w) = rows_for uid (committed w0) /\
  App.protected E allowed router now req w
  = (Ok (envelope 404 "error" "User tidak ditemukan"), after_read w).
Proof.
  intros Hh Hfalsy Hv Hid Hnz Hf Hdel Hc.
  destruct (delete_user_200_inv _ _ Hdel Hc) as (Hu & Ht & _).
  split; [unfold rows_for; now rewrite Ht|].
  rewrite (@protected_run D E allowed router now req h c uid w
             Hh Hfalsy Hv Hid Hnz Hf).
  cbn [Sql.user_role_flag fst sql_eqZ]. rewrite Hu.
  rewrite filter_negb_nil with (p := fun u => u_id u =? uid). reflexivity.
Qed.

Lemma deleted_user_is_locked_out_witness :
  exists r w,
    UserRoutes.delete 2 (initial_world Demo.two_pairs) = (Ok r, w) /\
    code r = 200 /\
    List.length (rows_for 2 (committed w)) = 1%nat /\
    App.protected Sample.E0 App.cashier_or_admin Sample.ok_router 50
                  (Sample.bearing Sample.bob_token) w
    = (Ok (envelope 404 "error" "User tidak ditemukan"), after_read w).
Proof.
  destruct (UserRoutes.delete 2 (initial_world Demo.two_pairs))
    as [[r|m] w] eqn:Hdel; [|discriminate Hdel].
  assert (Hc : code r = 200) by (inversion Hdel; reflexivity).
  assert (Hf : Db.next_fault w = None) by (inversion Hdel; reflexivity).
  destruct (@deleted_user_is_locked_out unit Sample.E0 App.cashier_or_admin
              Sample.ok_router 50 (Sample.bearing Sample.bob_token)
              (Bearer Sample.bob_token) (Sample.bob_claims (Some 3600))
              2 w (initial_world Demo.two_pairs) r
              eq_refl eq_refl eq_refl eq_refl)
    as (Hrows & Hrun); try assumption.
  - discriminate.
  - exists r, w. split; [reflexivity|]. split; [exact Hc|].
    split; [now rewrite Hrows | exact Hrun].
Defined.

(** ** Products *)

Lemma falsy_nonempty (v : string) :
  v <> EmptyString -> Products.falsy_str (Some v) = false.
Proof.
  intros H. unfold Products.falsy_str. now rewrite truthy_nonempty.
Qed.

(** X18: for a body whose properties have the types of the API
    description, [validateProductInput] answers, in this order of
    precedence: "Semua field wajib diisi" when id, name, size, color,
    category or price is missing, or id is 0, or one of the four strings is
    empty; the category message when the category is neither "clothing"
    nor "accessory", whatever the price; the price message when the price
    is NaN or negative; and [null] otherwise, a price of zero included.
    [available] plays no part. *)
Theorem validateProductInput_verdicts (b : Products.body) :
  (Products.b_id b = None \/ Products.b_id b = Some 0 \/
   Products.b_name b = None \/ Products.b_name b = Some EmptyString \/
   Products.b_size b = None \/ Products.b_size b = Some EmptyString \/
   Products.b_color b = None \/ Products.b_color b = Some EmptyString \/
   Products.b_category b = None \/ Products.b_category b = Some EmptyString \/
   Products.b_price b = None ->
   Products.validateProductInput b = Some "Semua field wajib diisi") /\
  (forall i n z c g p,
     Products.b_id b = Some i -> i <> 0 ->
     Products.b_name b = Some n -> n <> EmptyString ->
     Products.b_size b = Some z -> z <> EmptyString ->
     Products.b_color b = Some c -> c <> EmptyString ->
     Products.b_category b = Some g -> g <> EmptyString ->
     Products.b_price b = Some p ->
     (g <> "clothing" -> g <> "accessory" ->
      Products.validateProductInput b
      = Some ("category harus " ++ Products.quote ++ "clothing"
              ++ Products.quote ++ " atau " ++ Products.quote ++ "accessory"
              ++ Products.quote)) /\
     (g = "clothing" \/ g = "accessory" ->
      (p = NaN \/ exists q, p = Num q /\ (q < 0)%Q) ->
      Products.validateProductInput b
      = Some "price harus angka valid dan tidak negatif") /\
     (g = "clothing" \/ g = "accessory" ->
      forall q, p = Num q -> (0 <= q)%Q ->
      Products.validateProductInput b = None)).
Proof.
  split.
  - unfold Products.validateProductInput.
    intros [H|[H|[H|[H|[H|[H|[H|[H|[H|[H|H]]]]]]]]]]; rewrite H;
      cbn [id_falsy Products.falsy_str Js.truthy_num Js.truthy_str Z.eqb
           String.eqb negb orb];
      rewrite ?orb_true_r; reflexivity.
  - intros i n z c g p Hi Hi0 Hn Hn0 Hz Hz0 Hc Hc0 Hg Hg0 Hp.
    unfold Products.validateProductInput.
    rewrite Hi, Hn, Hz, Hc, Hg, Hp.
    rewrite (id_falsy_nonzero Hi0), !falsy_nonempty by assumption.
    cbn [orb].
    assert (Hallowed : g = "clothing" \/ g = "accessory" ->
                       Js.includes Products.ALLOWED_TYPES g = true).
    { intros Hcat. apply includes_In.
      destruct Hcat as [->| ->]; [now left | right; now left]. }
    split; [|split].
    + intros H1 H2.
      destruct (Js.includes Products.ALLOWED_TYPES g) eqn:Hin; [|reflexivity].
      apply includes_In in Hin. destruct Hin as [<-|[<-|[]]]; contradiction.
    + intros Hcat Hbad. rewrite (Hallowed Hcat). cbn [negb].
      destruct Hbad as [->|(q & -> & Hq)]; [reflexivity|].
      cbn [Products.isNaN Products.negative orb].
      destruct (Qle_bool 0 q) eqn:Hle; [|reflexivity].
      apply Qle_bool_iff in Hle. exfalso. exact (Qlt_not_le _ _ Hq Hle).
    + intros Hcat q -> Hq. rewrite (Hallowed Hcat).
      cbn [negb Products.isNaN Products.negative orb].
      apply Qle_bool_iff in Hq. now rewrite Hq.
Qed.

Lemma validateProductInput_verdicts_witness :
  Products.validateProductInput Demo.free_gift = None /\
  Products.validateProductInput Demo.refund
  = Some "price harus angka valid dan tidak negatif" /\
  Products.validateProductInput Demo.bad_category
  = Some ("category harus " ++ Products.quote ++ "clothing" ++ Products.quote
          ++ " atau " ++ Products.quote ++ "accessory" ++ Products.quote) /\
  Products.validateProductInput Sample.nameless
  = Some "Semua field wajib diisi".
Proof.
  split; [|split; [|split]].
  - refine (proj2 (proj2 (proj2 (validateProductInput_verdicts Demo.free_gift)
              1 "sticker" "S" "white" "accessory" (Num (0 # 1))
              eq_refl _ eq_refl _ eq_refl _ eq_refl _ eq_refl _ eq_refl))
              _ (0 # 1) eq_refl _); try discriminate. now right.
  - refine (proj1 (proj2 (proj2 (validateProductInput_verdicts Demo.refund)
              1 "sticker" "S" "white" "accessory" (Num (-1 # 2))
              eq_refl _ eq_refl _ eq_refl _ eq_refl _ eq_refl _ eq_refl))
              _ _); try discriminate.
    + now right.
    + right. exists (-1 # 2). split; reflexivity.
  - refine (proj1 (proj2 (validateProductInput_verdicts Demo.bad_category)
              1 "sticker" "S" "white" "toys" (Num (-1 # 2))
              eq_refl _ eq_refl _ eq_refl _ eq_refl _ eq_refl _ eq_refl)
              _ _); discriminate.
  - apply (proj1 (validateProductInput_verdicts Sample.nameless)).
    right. right. left. reflexivity.
Defined.

Lemma next_id_fresh (l : list product) (p : product) :
  In p l -> pr_id p < COALESCE (sql_MAX (map pr_id l)) 0 + 1.
Proof.
  intros Hin. pose proof (sql_MAX_spec (map pr_id l)) as Hmax.
  destruct (sql_MAX (map pr_id l)) as [m|]; cbn [COALESCE].
  - destruct Hmax as [_ Hall]. specialize (Hall _ (in_map pr_id _ _ Hin)). lia.
  - apply map_eq_nil in Hmax. subst l. contradiction.
Qed.

Lemma fresh_id_NoDup (l : list product) (row : product) :
  (forall p, In p l -> pr_id p < pr_id row) ->
  NoDup (map pr_id l) -> NoDup (map pr_id (l ++ [row])).
Proof.
  intros Hfresh Hnd. rewrite map_app. apply NoDup_snoc; [exact Hnd|].
  intros Hin. apply in_map_iff in Hin. destruct Hin as (p & Hp & Hin).
  specialize (Hfresh p Hin). lia.
Qed.

(** X19: whatever the body and whichever store calls fail, a product
    creation that starts with no transaction open leaves users, tokens and
    orders alone and either leaves the products table as it was or appends
    exactly one row, available, whose id is greater than every id already
    there; so product ids that were pairwise distinct stay so. *)
Theorem post_appends_at_most_one stock b w :
  txn w = None ->
  users (committed (snd (Products.post stock b w))) = users (committed w) /\
  tokens (committed (snd (Products.post stock b w))) = tokens (committed w) /\
  orders (committed (snd (Products.post stock b w))) = orders (committed w) /\
  (products (committed (snd (Products.post stock b w))) = products (committed w)
   \/ exists row,
        products (committed (snd (Products.post stock b w)))
        = (products (committed w) ++ [row])%list /\
        pr_available row = Some true /\
        forall p, In p (products (committed w)) -> pr_id p < pr_id row) /\
  (NoDup (product_ids (committed w)) ->
   NoDup (product_ids (committed (snd (Products.post stock b w))))).
Proof.
  intros Ht. unfold Products.post, product_ids.
  destruct (Products.validateProductInput b) as [err|];
    [cbn [ret Monad_M snd]; repeat split; auto|].
  db_unfold.
  repeat (call_any; rewrite ?Ht);
    cbn [snd committed users tokens orders products];
    repeat (split; [reflexivity|]);
    try (split; [now left | auto]).
  split.
  - right. eexists. split; [reflexivity|]. split; [reflexivity|].
    intros p Hp. cbn [pr_id]. now apply next_id_fresh.
  - apply fresh_id_NoDup. intros p Hp. cbn [pr_id]. now apply next_id_fresh.
Qed.

Lemma post_appends_at_most_one_witness :
  NoDup (product_ids
           (committed (snd (Products.post None Sample.shirt
                              (snd (Products.post None Sample.shirt
                                      (initial_world Sample.shop))))))).
Proof.
  assert (H1 : txn (snd (Products.post None Sample.shirt
                           (initial_world Sample.shop))) = None)
    by reflexivity.
  apply (proj2 (proj2 (proj2 (proj2
           (@post_appends_at_most_one None Sample.shirt _ H1))))).
  apply (proj2 (proj2 (proj2 (proj2
           (@post_appends_at_most_one None Sample.shirt
              (initial_world Sample.shop) eq_refl))))).
  unfold product_ids. simpl. repeat constructor; simpl; intuition discriminate.
Defined.

(** X20: the client is taken from the pool outside the [try]: when
    [pool.connect()] rejects, product creation sends no response at all
    (the rejection escapes the handler) and writes nothing. *)
Theorem post_connect_failure stock b w msg :
  Products.validateProductInput b = None -> Db.next_fault w = Some msg ->
  Products.post stock b w = (Throw msg, after_read w).
Proof.
  intros Hv Hf. unfold Products.post. rewrite Hv.
  cbn [bind Monad_M]. unfold Db.pool_connect.
  rewrite call_fault with (m := msg) by exact Hf. reflexivity.
Qed.

Lemma post_connect_failure_witness :
  Products.post None Sample.shirt
    (mkWorld Sample.shop None 0 [Some "pool exhausted"] [])
  = (Throw "pool exhausted",
     after_read (mkWorld Sample.shop None 0 [Some "pool exhausted"] [])).
Proof.
  apply post_connect_failure; reflexivity.
Defined.

(** X21: the product list is filtered only when the query says exactly
    [available=true]: then it holds the products whose flag is TRUE and no
    others; with any other value, "false" included, or none, it holds
    every product; [count] is the length of the list either way. *)
Theorem get_all_filters_only_on_true available w :
  calm 1 w ->
  exists data w',
    ProductRoutes.get_all available w
    = (Ok (mkResponse 200 None None None
             (Some (mkListing (List.length data) data))), w') /\
    committed w' = committed w /\
    (available = Some "true" ->
     forall item,
       In item data <->
       exists p, In p (products (committed w)) /\ item = item_of p /\
                 pr_available p = Some true) /\
    (available <> Some "true" ->
     data = map item_of (products (committed w))).
Proof.
  intros Hcalm. unfold ProductRoutes.get_all.
  cbn [catch Exc_M bind Monad_M ret]. query_step EmptyString.
  do 2 eexists. split; [reflexivity|]. split; [reflexivity|].
  cbn [ProductRoutes.select_items fst]. split.
  - intros ->. rewrite String.eqb_refl. intros item.
    rewrite in_map_iff. split.
    + intros (p & <- & Hp). apply filter_In in Hp. destruct Hp as [Hin Hav].
      exists p. split; [exact Hin|]. split; [reflexivity|].
      destruct (pr_available p) as [[|]|]; [reflexivity | discriminate..].
    + intros (p & Hin & -> & Hav). exists p. split; [reflexivity|].
      apply filter_In. split; [exact Hin|]. now rewrite Hav.
  - intros Hne. destruct available as [v|]; [|reflexivity].
    destruct (String.eqb_spec v "true") as [->|_]; [contradiction|reflexivity].
Qed.

Lemma get_all_filters_only_on_true_witness :
  (exists w',
     ProductRoutes.get_all (Some "false") (initial_world Sample.shop)
     = (Ok (mkResponse 200 None None None
              (Some (mkListing 2 [item_of Sample.cap; item_of Sample.belt]))),
        w')) /\
  (exists w',
     ProductRoutes.get_all (Some "true") (initial_world Sample.shop)
     = (Ok (mkResponse 200 None None None
              (Some (mkListing 1 [item_of Sample.belt]))), w')).
Proof.
  assert (Hcalm : calm 1 (initial_world Sample.shop))
    by (intros k _; simpl; now destruct k).
  split.
  - destruct (@get_all_filters_only_on_true (Some "false") _ Hcalm)
      as (data & w' & Hrun & _ & _ & Hall).
    exists w'. rewrite Hrun, Hall by discriminate. reflexivity.
  - destruct (@get_all_filters_only_on_true (Some "true") _ Hcalm)
      as (data & w' & Hrun & _ & _ & _).
    exists w'. rewrite Hrun. inversion Hrun. reflexivity.
Defined.

Lemma store_eta (s : store) :
  mkStore (users s) (tokens s) (products s) (orders s) = s.
Proof. now destruct s. Qed.

(** X22: [DELETE /products/:id], when the store answers: if no product
    has the id the answer is 404 and the store is unchanged; otherwise the
    answer is 204, the rows of that id and only those are gone, and a
    [GET /products/:id] that follows is answered 404. *)
Theorem delete_product_removes_id id w :
  calm 2 w ->
  ((forall p, In p (products (committed w)) -> pr_id p <> id) ->
   exists w',
     ProductRoutes.delete id w
     = (Ok (error_only 404 "Produk tidak ditemukan"), w') /\
     committed w' = committed w) /\
  ((exists p, In p (products (committed w)) /\ pr_id p = id) ->
   exists w' w'',
     ProductRoutes.delete id w = (Ok (mkResponse 204 None None None None), w') /\
     products (committed w')
     = filter (fun p => negb (pr_id p =? id)) (products (committed w)) /\
     (forall q, In q (products (committed w')) <->
                In q (products (committed w)) /\ pr_id q <> id) /\
     users (committed w') = users (committed w) /\
     tokens (committed w') = tokens (committed w) /\
     orders (committed w') = orders (committed w) /\
     ProductRoutes.get id w'
     = (Ok (error_only 404 "Produk tidak ditemukan"), w'')).
Proof.
  intros Hcalm. unfold ProductRoutes.delete.
  cbn [catch Exc_M bind Monad_M ret]. query_step EmptyString.
  cbn [ProductRoutes.delete_product fst snd]. split.
  - intros Hnone.
    rewrite (@filter_none _ (fun p => pr_id p =? id))
      by (intros p Hp; apply Z.eqb_neq; now apply Hnone).
    eexists. split; [reflexivity|]. cbn [committed].
    rewrite filter_all; [apply store_eta|].
    intros p Hp. apply negb_true_iff, Z.eqb_neq. now apply Hnone.
  - intros (p & Hin & Hid).
    destruct (@filter_some _ (fun p => pr_id p =? id) _ p Hin)
      as (y & r & ->); [now apply Z.eqb_eq|].
    do 2 eexists. split; [reflexivity|].
    cbn [committed products users tokens orders].
    split; [reflexivity|]. split; [|repeat (split; [reflexivity|])].
    + intros q. rewrite filter_In, negb_true_iff, Z.eqb_neq. reflexivity.
    + unfold ProductRoutes.get. cbn [catch Exc_M bind Monad_M ret].
      query_step EmptyString. cbn [Sql.product_by_id fst snd products].
      rewrite filter_negb_nil with (p := fun p => pr_id p =? id).
      reflexivity.
Qed.

Lemma delete_product_removes_id_witness :
  (exists w',
     ProductRoutes.delete 5 (initial_world Sample.shop)
     = (Ok (error_only 404 "Produk tidak ditemukan"), w') /\
     committed w' = Sample.shop) /\
  (exists w',
     ProductRoutes.delete 4 (initial_world Sample.shop)
     = (Ok (mkResponse 204 None None None None), w') /\
     products (committed w') = [Sample.belt]).
Proof.
  assert (Hcalm : calm 2 (initial_world Sample.shop))
    by (intros k _; simpl; now destruct k as [|[|k]]).
  split.
  - apply (proj1 (@delete_product_removes_id 5 _ Hcalm)).
    intros p [<-|[<-|[]]]; discriminate.
  - destruct (proj2 (@delete_product_removes_id 4 _ Hcalm))
      as (w' & w'' & Hrun & Hprod & _).
    + exists Sample.cap. split; [now left | reflexivity].
    + exists w'. split; [exact Hrun|]. rewrite Hprod. reflexivity.
Defined.

(** X23: a product just created is found under the id it was given: when
    the store serves a valid creation and the read that follows, the read
    of the new id is answered 200 with exactly the row the creation
    returned. *)
Theorem post_then_get stock b w :
  Products.validateProductInput b = None -> txn w = None -> calm 7 w ->
  exists row w1 w2,
    Products.post stock b w
    = (Ok (mkResponse 201 None None None (Some row)), w1) /\
    ProductRoutes.get (pr_id row) w1
    = (Ok (mkResponse 200 None None None (Some row)), w2).
Proof.
  intros Hv Ht Hcalm. unfold Products.post. rewrite Hv. db_unfold.
  do 4 (db_step EmptyString; rewrite ?Ht).
  db_step EmptyString. db_step EmptyString. cbn [hd_error].
  eexists. eexists. eexists. split; [reflexivity|].
  unfold ProductRoutes.get. cbn [catch Exc_M bind Monad_M ret pr_id].
  query_step EmptyString. cbn [Sql.product_by_id fst snd products].
  rewrite filter_app.
  rewrite (@filter_none _ (fun p => pr_id p =? _) (products (committed w))).
  - cbn [filter app pr_id]. rewrite Z.eqb_refl. reflexivity.
  - intros p Hp. apply Z.eqb_neq. pose proof (next_id_fresh _ _ Hp). lia.
Qed.

Lemma post_then_get_witness :
  exists row w1 w2,
    Products.post None Sample.shirt (initial_world Sample.shop)
    = (Ok (mkResponse 201 None None None (Some row)), w1) /\
    pr_id row = 10 /\
    ProductRoutes.get 10 w1
    = (Ok (mkResponse 200 None None None (Some row)), w2).
Proof.
  destruct (@post_then_get None Sample.shirt (initial_world Sample.shop))
    as (row & w1 & w2 & Hpost & Hget); try reflexivity.
  - intros k _. simpl. now destruct k.
  - assert (Hid : pr_id row = 10) by (inversion Hpost; reflexivity).
    exists row, w1, w2. split; [exact Hpost|]. split; [exact Hid|].
    now rewrite <- Hid.
Defined.

Lemma map_unmatched {A : Type} (hit : A -> bool) (f : A -> A) (l : list A) :
  (forall x, In x l -> hit x = false) ->
  map (fun x => if hit x then f x else x) l = l.
Proof.
  induction l as [|x l IH]; intros H; simpl; [reflexivity|].
  rewrite (H x (or_introl eq_refl)). f_equal. apply IH.
  intros y Hy. apply H. now right.
Qed.

(** X24: an update of an id that no row has is answered 404 and changes
    nothing, for users, orders and (once the body passes validation)
    products alike. *)
Theorem put_absent_not_found :
  (forall id b w,
     calm 1 w ->
     (forall u, In u (users (committed w)) -> u_id u <> id) ->
     exists w',
       Users.put id b w = (Ok (envelope 404 "error" "User tidak ditemukan"), w') /\
       committed w' = committed w) /\
  (forall id b w,
     calm 1 w ->
     (forall o, In o (orders (committed w)) -> o_id o <> id) ->
     exists w',
       Orders.put id b w = (Ok (envelope 404 "error" "Order tidak ditemukan"), w') /\
       committed w' = committed w) /\
  (forall id b w,
     calm 1 w -> Products.validateProductInput b = None ->
     (forall p, In p (products (committed w)) -> pr_id p <> id) ->
     exists w',
       Products.put id b w = (Ok (error_only 404 "Produk tidak ditemukan"), w') /\
       committed w' = committed w).
Proof.
  split; [|split].
  - intros id b w Hcalm Hnone. unfold Users.put.
    cbn [catch Exc_M bind Monad_M ret]. query_step EmptyString.
    cbn [Sql.update_user fst snd].
    rewrite (@map_unmatched _ (fun u => u_id u =? id))
      by (intros u Hu; apply Z.eqb_neq; now apply Hnone).
    rewrite (@filter_none _ (fun u => u_id u =? id))
      by (intros u Hu; apply Z.eqb_neq; now apply Hnone).
    eexists. split; [reflexivity|]. apply store_eta.
  - intros id b w Hcalm Hnone. unfold Orders.put.
    cbn [catch Exc_M bind Monad_M ret]. query_step EmptyString.
    cbn [Sql.update_order fst snd].
    rewrite (@map_unmatched _ (fun o => o_id o =? id))
      by (intros o Ho; apply Z.eqb_neq; now apply Hnone).
    rewrite (@filter_none _ (fun o => o_id o =? id))
      by (intros o Ho; apply Z.eqb_neq; now apply Hnone).
    eexists. split; [reflexivity|]. apply store_eta.
  - intros id b w Hcalm Hv Hnone. unfold Products.put. rewrite Hv.
    cbn [catch Exc_M bind Monad_M ret]. query_step EmptyString.
    cbn [Sql.product_by_id fst snd].
    rewrite (@filter_none _ (fun p => pr_id p =? id))
      by (intros p Hp; apply Z.eqb_neq; now apply Hnone).
    eexists. split; reflexivity.
Qed.

Lemma put_absent_not_found_witness :
  (exists w',
     Users.put 8 Demo.demote (initial_world Sample.s0)
     = (Ok (envelope 404 "error" "User tidak ditemukan"), w') /\
     committed w' = Sample.s0) /\
  (exists w',
     Orders.put 2 Sample.only_customer (initial_world Sample.orders_store)
     = (Ok (envelope 404 "error" "Order tidak ditemukan"), w') /\
     committed w' = Sample.orders_store) /\
  (exists w',
     Products.put 5 Sample.shirt (initial_world Sample.shop)
     = (Ok (error_only 404 "Produk tidak ditemukan"), w') /\
     committed w' = Sample.shop).
Proof.
  destruct put_absent_not_found as (Hu & Ho & Hp).
  assert (Hcalm : forall s, calm 1 (initial_world s))
    by (intros s k _; simpl; now destruct k).
  split; [|split].
  - apply Hu; [apply Hcalm|]. intros u [<-|[<-|[<-|[]]]]; discriminate.
  - apply Ho; [apply Hcalm|]. intros o [<-|[]]; discriminate.
  - apply Hp; [apply Hcalm | reflexivity |].
    intros p [<-|[<-|[]]]; discriminate.
Defined.

(** ** Requests that stop early *)

(** X25: a login body without an email is answered 400 "Email tidak
    ditemukan" (a NULL parameter matches no row); a login body without a
    password, for an email that has a row, is answered 500, because bcrypt
    rejects the missing data; neither touches the token table. *)
Theorem login_missing_fields E compare now body w :
  calm 1 w ->
  (Auth.lb_email body = None ->
   exists w',
     Auth.login E compare now body w
     = (Ok (envelope 400 "error" "Email tidak ditemukan"), w') /\
     committed w' = committed w) /\
  (forall user rest,
     fst (Sql.users_by_email (Auth.lb_email body) (committed w)) = user :: rest ->
     Auth.lb_password body = None ->
     exists w',
       Auth.login E compare now body w
       = (Ok (envelope 500 "error"
                ("Internal server error: " ++ "data and hash arguments required")),
          w') /\
       committed w' = committed w).
Proof.
  intros Hcalm. unfold Auth.login. cbn [catch Exc_M bind Monad_M ret].
  query_step EmptyString. split.
  - intros ->. cbn [Sql.users_by_email fst sql_eqS].
    rewrite filter_none by reflexivity. eexists. split; reflexivity.
  - intros user rest -> Hp. unfold Auth.bcrypt_compare. rewrite Hp.
    cbn [raise Exc_M]. eexists. split; reflexivity.
Qed.

Lemma login_missing_fields_witness :
  (exists w',
     Auth.login Sample.E0 Sample.compare0 100
                (Auth.mkLoginBody None (Some "b")) (initial_world Sample.s0)
     = (Ok (envelope 400 "error" "Email tidak ditemukan"), w') /\
     committed w' = Sample.s0) /\
  (exists w',
     Auth.login Sample.E0 Sample.compare0 100
                (Auth.mkLoginBody (Some "bob@shop.test") None)
                (initial_world Sample.s0)
     = (Ok (envelope 500 "error"
              "Internal server error: data and hash arguments required"), w') /\
     committed w' = Sample.s0).
Proof.
  assert (Hcalm : calm 1 (initial_world Sample.s0))
    by (intros k _; simpl; now destruct k).
  split.
  - apply (proj1 (@login_missing_fields Sample.E0 Sample.compare0 100
                    (Auth.mkLoginBody None (Some "b")) _ Hcalm)).
    reflexivity.
  - apply (proj2 (@login_missing_fields Sample.E0 Sample.compare0 100
                    (Auth.mkLoginBody (Some "bob@shop.test") None) _ Hcalm)
             Sample.bob []); reflexivity.
Defined.

(** X26: on a protected route, a request with no authorization header, an
    expired token or a token signed with another key is answered 401 by
    the token stage and goes no further: the store is not read (no call is
    made, so none can fail) and the router is not run. *)
Theorem protected_stops_at_token_stage (D : Type) E allowed
        (router : request -> M (response D)) now req w :
  (authorization req = None ->
   App.protected E allowed router now req w
   = (Ok (envelope 401 "error" "Token tidak ditemukan atau belum login"), w)) /\
  (forall c k e u',
     JWT_SECRET E = Some k -> c_exp c = Some e -> e <= now ->
     req = mkRequest (Some (Bearer (Signed c k))) u' ->
     App.protected E allowed router now req w
     = (Ok (envelope 401 "error" expired_message), w)) /\
  (forall c k sk u',
     JWT_SECRET E = Some sk -> k <> sk ->
     req = mkRequest (Some (Bearer (Signed c k))) u' ->
     App.protected E allowed router now req w
     = (Ok (envelope 401 "error" "Token invalid: invalid signature"), w)).
Proof.
  unfold App.protected, verifyToken. split; [|split].
  - intros ->. reflexivity.
  - intros c k e u' Hk He Hle ->.
    cbn [authorization text_falsy strip_bearer].
    rewrite Hk, (verify_expired c k He Hle). reflexivity.
  - intros c k sk u' Hk Hne ->.
    cbn [authorization text_falsy strip_bearer].
    rewrite Hk, (verify_tampered c now Hne). reflexivity.
Qed.

Lemma protected_stops_at_token_stage_witness :
  App.protected Sample.E0 App.admin_only Sample.ok_router 20
                (Sample.bearing Sample.expired_token)
                (mkWorld Sample.s0 None 0 [Some "down"] [])
  = (Ok (envelope 401 "error" expired_message),
     mkWorld Sample.s0 None 0 [Some "down"] []) /\
  App.protected Sample.E0 App.admin_only Sample.ok_router 20
                (Sample.bearing Sample.forged_token)
                (mkWorld Sample.s0 None 0 [Some "down"] [])
  = (Ok (envelope 401 "error" "Token invalid: invalid signature"),
     mkWorld Sample.s0 None 0 [Some "down"] []).
Proof.
  split.
  - apply (proj1 (proj2 (@protected_stops_at_token_stage unit Sample.E0
                           App.admin_only Sample.ok_router 20
                           (Sample.bearing Sample.expired_token)
                           (mkWorld Sample.s0 None 0 [Some "down"] [])))
             (Sample.bob_claims (Some 10)) "s3cret" 10 None);
      [reflexivity | reflexivity | lia | reflexivity].
  - apply (proj2 (proj2 (@protected_stops_at_token_stage unit Sample.E0
                           App.admin_only Sample.ok_router 20
                           (Sample.bearing Sample.forged_token)
                           (mkWorld Sample.s0 None 0 [Some "down"] [])))
             (Sample.bob_claims (Some 10)) "guess" "s3cret" None);
      [reflexivity | discriminate | reflexivity].
Defined.
